(** * C.A.F.E. panel registration (Home Assistant custom integration)

    A shallow embedding of

      - [custom_components/cafe/panel.py]
          ([async_register_panel], [async_unregister_panel]) and
      - [custom_components/flow_automator/__init__.py]
          ([async_setup], [async_setup_entry], [async_unload_entry]),

    together with the part of the Python runtime these functions rely on
    ([Path.glob], [str.endswith], [int] of a clock reading, [str] of an
    [int]) and an interface for the host (Home Assistant) they call into. *)

From Stdlib Require Import ZArith QArith Qround Ascii.
From Stdlib Require Import DecimalString DecimalPos DecimalZ.
From stdpp Require Import gmap strings list fin_maps.

Close Scope Q_scope.

(** ** Python primitives used by the source *)

Module Py.

(** [fnmatch]-style matching of one path component, as [Path.glob] does
    for a pattern without [/] or [**]: [*] matches any run of characters
    (also the empty one), [?] any single character, every other character
    itself. Matching is case sensitive (POSIX flavour). Bracket classes are
    not modelled; the only pattern in the source, [index-*.js], has none. *)
Fixpoint fnmatch (pat name : string) : bool :=
  match pat with
  | EmptyString =>
      match name with EmptyString => true | String _ _ => false end
  | String c pat' =>
      if Ascii.eqb c "*"%char then
        (fix star (n : string) : bool :=
           fnmatch pat' n ||
           match n with
           | EmptyString => false
           | String _ n' => star n'
           end) name
      else if Ascii.eqb c "?"%char then
        match name with
        | EmptyString => false
        | String _ n' => fnmatch pat' n'
        end
      else
        match name with
        | EmptyString => false
        | String d n' => Ascii.eqb c d && fnmatch pat' n'
        end
  end.

(** [s.endswith(suffix)]: some tail of [s] is [suffix]. *)
Fixpoint endswith (s suffix : string) : bool :=
  String.eqb s suffix ||
  match s with
  | EmptyString => false
  | String _ s' => endswith s' suffix
  end.

(** [int(x)] for a finite float [x]: truncation toward zero. A finite
    float is a rational number, and [int] of it is exact, so the clock
    reading is carried as a [Q]. *)
Definition int_ (x : Q) : Z := Z.quot (Qnum x) (Z.pos (Qden x)).

(** [str(n)] for an [int]: decimal digits, a leading [-] when negative. *)
Definition str (n : Z) : string := NilZero.string_of_int (Z.to_int n).

(** [int(s)] for a string of decimal digits, the inverse of [str]. *)
Definition parse_int (s : string) : option Z :=
  Z.of_int <$> NilZero.int_of_string s.

(** [str(b)] for a [bool], as an f-string renders it. *)
Definition str_bool (b : bool) : string := if b then "True" else "False".

(** [c.isdigit()] on one ASCII character. *)
Definition isdigit (c : ascii) : bool :=
  let n := nat_of_ascii c in (48 <=? n)%nat && (n <=? 57)%nat.

Fixpoint all_digits (s : string) : bool :=
  match s with
  | EmptyString => true
  | String c s' => isdigit c && all_digits s'
  end.

End Py.

(** ** Paths and the file system the source reads *)

Module pathlib.

(** A [pathlib.Path], kept as its parent directory (already rendered) and
    its final component, which is what [.name] returns. *)
Record Path := { parent : string; name : string }.

(** [str(p)] *)
Definition str (p : Path) : string := parent p +:+ "/" +:+ name p.

(** [p / child] *)
Definition truediv (p : Path) (child : string) : Path :=
  {| parent := str p; name := child |}.

End pathlib.

Declare Scope path_scope.
Infix "/" := pathlib.truediv : path_scope.
Delimit Scope path_scope with path.
Bind Scope path_scope with pathlib.Path.

Inductive Node :=
| File
| Dir (entries : list string).

(** What a run of the source can read: the file tree (a directory lists its
    entries in enumeration order) and the clock reading of [time.time()]. *)
Record Env := { fs : string -> option Node; clock : Q }.

(** [dir.glob(pattern)] for a one-component pattern: the entries of [dir]
    that match, in enumeration order; nothing when [dir] is missing or is
    not a directory. *)
Definition glob (env : Env) (dir : pathlib.Path) (pattern : string)
  : list pathlib.Path :=
  match fs env (pathlib.str dir) with
  | Some (Dir entries) =>
      map (pathlib.truediv dir) (List.filter (Py.fnmatch pattern) entries)
  | _ => []
  end.

(** [p.exists()] *)
Definition exists_ (env : Env) (p : pathlib.Path) : bool :=
  match fs env (pathlib.str p) with Some _ => true | None => false end.

(** ** The host interface *)

(** An exception, by the name of its class. *)
Definition Exn := string.

Inductive result (A : Type) :=
| Ok (a : A)
| Raised (e : Exn).
Arguments Ok {A} a.
Arguments Raised {A} e.

Definition is_ok {A} (r : result A) : bool :=
  match r with Ok _ => true | Raised _ => false end.

(** [homeassistant.components.http.StaticPathConfig] *)
Record StaticPathConfig :=
  { url_path : string; path : string; cache_headers : bool }.

(** Keyword arguments of [panel_custom.async_register_panel]. *)
Module panel_custom.
Record kwargs :=
  { webcomponent_name : string;
    frontend_url_path : string;
    module_url : string;
    sidebar_title : string;
    sidebar_icon : string;
    require_admin : bool;
    config : list (string * string);
    config_panel_domain : string }.
End panel_custom.

(** Keyword arguments of [frontend.async_register_built_in_panel]. *)
Module frontend.
Record kwargs :=
  { component_name : string;
    sidebar_title : string;
    sidebar_icon : string;
    frontend_url_path : string;
    config : list (string * string);
    require_admin : bool }.
End frontend.

(** The calls the source makes on [hass] and on the host's components. *)
Inductive HostCall :=
| http_async_register_static_paths (configs : list StaticPathConfig)
| http_register_static_path (url_path path : string) (cache_headers : bool)
| data_frontend_panels_pop (key : string)
| panel_custom_async_register_panel (kw : panel_custom.kwargs)
| frontend_async_register_built_in_panel (kw : frontend.kwargs)
| frontend_async_remove_panel (frontend_url_path : string).

Inductive Level := ERROR | INFO.

(** ** Programs: the effects of the source, in order *)

Inductive Prog (A : Type) :=
| Ret (a : A)
| Raise (e : Exn)
| Call (c : HostCall) (k : result unit -> Prog A)
| Glob (dir : pathlib.Path) (pattern : string) (k : list pathlib.Path -> Prog A)
| PathExists (p : pathlib.Path) (k : bool -> Prog A)
| TimeTime (k : Q -> Prog A)
| Log (lvl : Level) (msg : string) (k : Prog A).
Arguments Ret {A} a.
Arguments Raise {A} e.
Arguments Call {A} c k.
Arguments Glob {A} dir pattern k.
Arguments PathExists {A} p k.
Arguments TimeTime {A} k.
Arguments Log {A} lvl msg k.

Fixpoint bind {A B} (p : Prog A) (f : A -> Prog B) : Prog B :=
  match p with
  | Ret a => f a
  | Raise e => Raise e
  | Call c k => Call c (fun r => bind (k r) f)
  | Glob d pat k => Glob d pat (fun l => bind (k l) f)
  | PathExists q k => PathExists q (fun b => bind (k b) f)
  | TimeTime k => TimeTime (fun t => bind (k t) f)
  | Log lvl msg k => Log lvl msg (bind k f)
  end.

#[global] Instance prog_ret : MRet Prog := @Ret.
#[global] Instance prog_bind : MBind Prog := fun A B f p => bind p f.

(** [try: body except: handler] with a bare [except], which catches every
    exception raised inside [body]. *)
Fixpoint try_except {A} (body : Prog A) (handler : Exn -> Prog A) : Prog A :=
  match body with
  | Ret a => Ret a
  | Raise e => handler e
  | Call c k => Call c (fun r => try_except (k r) handler)
  | Glob d pat k => Glob d pat (fun l => try_except (k l) handler)
  | PathExists q k => PathExists q (fun b => try_except (k b) handler)
  | TimeTime k => TimeTime (fun t => try_except (k t) handler)
  | Log lvl msg k => Log lvl msg (try_except k handler)
  end.

(** A host call outside any [try]: an exception of the host propagates. *)
Definition call (c : HostCall) : Prog unit :=
  Call c (fun r => match r with Ok _ => Ret tt | Raised e => Raise e end).

Definition path_glob (dir : pathlib.Path) (pattern : string)
  : Prog (list pathlib.Path) := Glob dir pattern Ret.
Definition path_exists (p : pathlib.Path) : Prog bool := PathExists p Ret.
Definition time_time : Prog Q := TimeTime Ret.
Definition log (lvl : Level) (msg : string) : Prog unit := Log lvl msg (Ret tt).

(** What a run does, in order. *)
Inductive Event :=
| EvCall (c : HostCall)
| EvGlob (dir : pathlib.Path) (pattern : string)
| EvExists (p : pathlib.Path)
| EvTime
| EvLog (lvl : Level) (msg : string).

(** A host answers each call from its state: it returns or raises, and
    moves to a new state. *)
Definition Host (S : Type) := HostCall -> S -> result unit * S.

Section Run.
Context {S : Type} (host : Host S) (env : Env).

Fixpoint run {A} (p : Prog A) (s : S) : result A * S * list Event :=
  match p with
  | Ret a => (Ok a, s, [])
  | Raise e => (Raised e, s, [])
  | Call c k =>
      let '(r, s1) := host c s in
      let '(o, s2, t) := run (k r) s1 in
      (o, s2, EvCall c :: t)
  | Glob d pat k =>
      let '(o, s1, t) := run (k (glob env d pat)) s in
      (o, s1, EvGlob d pat :: t)
  | PathExists q k =>
      let '(o, s1, t) := run (k (exists_ env q)) s in
      (o, s1, EvExists q :: t)
  | TimeTime k =>
      let '(o, s1, t) := run (k (clock env)) s in
      (o, s1, EvTime :: t)
  | Log lvl msg k =>
      let '(o, s1, t) := run k s in
      (o, s1, EvLog lvl msg :: t)
  end.

Definition outcome {A} (p : Prog A) (s : S) : result A := (run p s).1.1.
Definition final {A} (p : Prog A) (s : S) : S := (run p s).1.2.
Definition trace {A} (p : Prog A) (s : S) : list Event := (run p s).2.

(** Whether the host returns normally from [c] in state [s], and the state
    it is in afterwards. *)
Definition accepts (c : HostCall) (s : S) : Prop := (host c s).1 = Ok tt.
Definition after (c : HostCall) (s : S) : S := (host c s).2.
End Run.

(** The host calls of a trace, and among them the panel-creation requests. *)
Definition calls (t : list Event) : list HostCall :=
  omap (fun ev => match ev with EvCall c => Some c | _ => None end) t.

Definition is_panel_creation (c : HostCall) : bool :=
  match c with
  | panel_custom_async_register_panel _
  | frontend_async_register_built_in_panel _ => true
  | _ => false
  end.

Definition panel_creations (t : list Event) : list HostCall :=
  List.filter is_panel_creation (calls t).

Definition is_static_path_call (c : HostCall) : bool :=
  match c with
  | http_async_register_static_paths _ | http_register_static_path _ _ _ => true
  | _ => false
  end.

Definition log_records (t : list Event) : list (Level * string) :=
  omap (fun ev => match ev with EvLog l m => Some (l, m) | _ => None end) t.

(** ** [custom_components/cafe/panel.py] *)

Module cafe.
Section panel.
(** [from .const import DOMAIN, PANEL_TITLE, PANEL_ICON]: the constants of
    [const.py], and [Path(__file__).parent], the directory of the
    component. *)
Variables (DOMAIN PANEL_TITLE PANEL_ICON : string) (here : pathlib.Path).

Definition PANEL_URL : string := "/api/" +:+ DOMAIN +:+ "_panel".
Definition PANEL_NAME : string := DOMAIN +:+ "-panel".

Definition www_path : pathlib.Path := (here / "www")%path.

(** The condition of [[f for f in ... if not f.name.endswith('.map')]]. *)
Definition not_map (f : pathlib.Path) : bool :=
  negb (Py.endswith (pathlib.name f) ".map").

(** [int(time.time())] *)
Definition cache_bust (now : Q) : Z := Py.int_ now.

(** [f"/cafe_static/assets/{js_filename}?v={cache_bust}"] *)
Definition module_url (js_filename : string) (cache_bust : Z) : string :=
  "/cafe_static/assets/" +:+ js_filename +:+ "?v=" +:+ Py.str cache_bust.

Definition async_register_panel : Prog unit :=
  call (http_async_register_static_paths
          [ {| url_path := "/cafe_static";
               path := pathlib.str www_path;
               cache_headers := false |} ]);;
  globbed ← path_glob (www_path / "assets")%path "index-*.js";
  let js_files := List.filter not_map globbed in
  match js_files with
  | [] =>
      log ERROR "No JavaScript files found in assets directory";;
      assets_exist ← path_exists (www_path / "assets")%path;
      log ERROR ("www path: " +:+ pathlib.str www_path +:+
                 ", assets exist: " +:+ Py.str_bool assets_exist);;
      mret tt
  | f :: _ =>
      let js_filename := pathlib.name f in
      now ← time_time;
      let cache_bust := cache_bust now in
      let module_url := module_url js_filename cache_bust in
      try_except
        (call (data_frontend_panels_pop DOMAIN);;
         log INFO "Removed any existing panel registration")
        (fun _ => mret tt);;
      call (panel_custom_async_register_panel
              {| panel_custom.webcomponent_name := PANEL_NAME;
                 panel_custom.frontend_url_path := DOMAIN;
                 panel_custom.module_url := module_url;
                 panel_custom.sidebar_title := PANEL_TITLE;
                 panel_custom.sidebar_icon := PANEL_ICON;
                 panel_custom.require_admin := true;
                 panel_custom.config := [];
                 panel_custom.config_panel_domain := DOMAIN |});;
      log INFO ("C.A.F.E. panel registered successfully with module: "
                +:+ js_filename)
  end.

Definition async_unregister_panel : Prog unit :=
  call (frontend_async_remove_panel DOMAIN);;
  log INFO "C.A.F.E. panel unregistered".

End panel.
End cafe.

(** ** [custom_components/flow_automator/__init__.py] *)

Module flow_automator.

Definition DOMAIN : string := "flow_automator".
Definition PANEL_URL : string := "/flow_automator_panel".
Definition PANEL_TITLE : string := "C.A.F.E.".
Definition PANEL_ICON : string := "mdi:graph".

Section init.
(** [Path(__file__).parent], and the types of the arguments the host
    passes to the hooks. *)
Variable here : pathlib.Path.
Context {ConfigType ConfigEntry : Type}.

Definition async_setup (config : ConfigType) : Prog bool :=
  let www_path := (here / "www")%path in
  call (http_register_static_path
          "/flow_automator_static" (pathlib.str www_path) false);;
  call (frontend_async_register_built_in_panel
          {| frontend.component_name := "iframe";
             frontend.sidebar_title := PANEL_TITLE;
             frontend.sidebar_icon := PANEL_ICON;
             frontend.frontend_url_path := "flow-automator";
             frontend.config := [("url", "/flow_automator_static/index.html")];
             frontend.require_admin := true |});;
  log INFO "C.A.F.E. panel registered";;
  mret true.

Definition async_setup_entry (entry : ConfigEntry) : Prog bool :=
  mret true.

Definition async_unload_entry (entry : ConfigEntry) : Prog bool :=
  mret true.
End init.

End flow_automator.

(** ** A reference host *)

Module hass.

(** Modelled from the spec: the panel registration record of the host, "keyed
    by an integration identifier (domain), holding: sidebar title, icon, URL
    path, module/iframe URL, admin-only flag, and an opaque config payload". *)
Record Panel :=
  { component_name : string;
    sidebar_title : string;
    sidebar_icon : string;
    frontend_url_path : string;
    url : option string;
    config : list (string * string);
    require_admin : bool }.

(** Modelled from the spec: the two tables of the host the source acts on,
    its static-path table and its panel registry. The registry is
    [hass.data["frontend_panels"]], a dict keyed by the URL path of the panel
    ([None] while the key is not in [hass.data]). *)
Record State :=
  { static_paths : list StaticPathConfig;
    frontend_panels : option (gmap string Panel) }.

Definition panels (s : State) : gmap string Panel :=
  default ∅ (frontend_panels s).

(** The panel entries registered under [key]. *)
Definition entries_for (key : string) (s : State) : list (string * Panel) :=
  List.filter (fun kv => String.eqb kv.1 key) (map_to_list (panels s)).

Definition served (prefix : string) (s : State) : bool :=
  existsb (fun c => String.eqb (url_path c) prefix) (static_paths s).

(** Modelled from the spec: the host's [register_static_path(path,
    directory, cache_headers)] (Home Assistant's [hass.http], not part of
    the repository). "Re-registering the same path is treated as a no-op". *)
Definition register_static_paths (configs : list StaticPathConfig)
    (s : State) : State :=
  {| static_paths :=
       fold_left
         (fun table c =>
            if existsb (fun c' => String.eqb (url_path c') (url_path c)) table
            then table else table ++ [c])
         configs (static_paths s);
     frontend_panels := frontend_panels s |}.

(** Modelled from the spec: the host's [register_panel(kind, domain,
    url_path, module_or_iframe_url, title, icon, require_admin, config)]
    (Home Assistant's [frontend] and [panel_custom], not part of the
    repository). It creates the entry keyed by the URL path. The spec does
    not say what the host does when an entry is already registered under
    that key, so both policies are modelled: a [strict] host refuses with
    an error, a lenient one replaces the entry. *)
Definition register_panel (strict : bool) (p : Panel) (s : State)
  : result unit * State :=
  if strict && bool_decide (is_Some (panels s !! frontend_url_path p))
  then (Raised "ValueError", s)
  else (Ok tt,
        {| static_paths := static_paths s;
           frontend_panels := Some (<[frontend_url_path p := p]> (panels s)) |}).

(** Modelled from the spec: the host's [remove_panel(domain)]. "Removing a
    non-existent panel is not an error." *)
Definition remove_panel (key : string) (s : State) : State :=
  {| static_paths := static_paths s;
     frontend_panels := delete key <$> frontend_panels s |}.

(** [hass.data.get("frontend_panels", {}).pop(key, None)]: a dict [pop]
    with a default, on the dict of the host or, when the key is not in
    [hass.data], on a fresh empty dict that is dropped. *)
Definition frontend_panels_pop (key : string) (s : State) : State :=
  {| static_paths := static_paths s;
     frontend_panels := delete key <$> frontend_panels s |}.

Definition custom_panel (kw : panel_custom.kwargs) : Panel :=
  {| component_name := "custom";
     sidebar_title := panel_custom.sidebar_title kw;
     sidebar_icon := panel_custom.sidebar_icon kw;
     frontend_url_path := panel_custom.frontend_url_path kw;
     url := Some (panel_custom.module_url kw);
     config := panel_custom.config kw;
     require_admin := panel_custom.require_admin kw |}.

Definition built_in_panel (kw : frontend.kwargs) : Panel :=
  {| component_name := frontend.component_name kw;
     sidebar_title := frontend.sidebar_title kw;
     sidebar_icon := frontend.sidebar_icon kw;
     frontend_url_path := frontend.frontend_url_path kw;
     url := snd <$> List.find (fun kv => String.eqb kv.1 "url") (frontend.config kw);
     config := frontend.config kw;
     require_admin := frontend.require_admin kw |}.

Definition host (strict : bool) : Host State := fun c s =>
  match c with
  | http_async_register_static_paths configs =>
      (Ok tt, register_static_paths configs s)
  | http_register_static_path u p h =>
      (Ok tt, register_static_paths
                [ {| url_path := u; path := p; cache_headers := h |} ] s)
  | data_frontend_panels_pop key => (Ok tt, frontend_panels_pop key s)
  | panel_custom_async_register_panel kw =>
      register_panel strict (custom_panel kw) s
  | frontend_async_register_built_in_panel kw =>
      register_panel strict (built_in_panel kw) s
  | frontend_async_remove_panel key => (Ok tt, remove_panel key s)
  end.

Definition empty : State := {| static_paths := []; frontend_panels := None |}.

End hass.

(** A host in which [hass.data["frontend_panels"]] does not hold a dict, so
    that the [pop] on it raises. It shows what the source does when the
    removal step itself fails. *)
Definition faulty_host : Host unit := fun c s =>
  match c with
  | data_frontend_panels_pop _ => (Raised "AttributeError", s)
  | _ => (Ok tt, s)
  end.

(** ** Sample deployments *)

Module sample.

Definition here : pathlib.Path :=
  {| pathlib.parent := "/config/custom_components"; pathlib.name := "cafe" |}.

Definition assets_dir : string := "/config/custom_components/cafe/www/assets".

Definition tree (entries : option (list string)) : string -> option Node :=
  fun p =>
    if String.eqb p assets_dir then Dir <$> entries
    else if String.eqb p "/config/custom_components/cafe/www" then Some (Dir ["assets"; "index.html"])
    else None.

Definition built : Env :=
  {| fs := tree (Some ["index-C0ffee.css"; "index-C0ffee.js"; "index-C0ffee.js.map"]);
     clock := 17621784007 # 10 |}.

Definition rebuilt : Env :=
  {| fs := tree (Some ["index-Dec0de.js"; "index-Dec0de.js.map"]);
     clock := 17621784017 # 10 |}.

Definition unbuilt : Env :=
  {| fs := tree (Some ["index.html.bak"]); clock := 17621784007 # 10 |}.

Definition missing : Env :=
  {| fs := tree None; clock := 17621784007 # 10 |}.

Definition register : Prog unit :=
  cafe.async_register_panel "cafe" "C.A.F.E." "mdi:graph" here.

Definition unregister : Prog unit := cafe.async_unregister_panel "cafe".

Definition flow_here : pathlib.Path :=
  {| pathlib.parent := "/config/custom_components";
     pathlib.name := "flow_automator" |}.

Definition setup : Prog bool := flow_automator.async_setup flow_here tt.

(** A host state in which a panel of an earlier load is still registered. *)
Definition stale : hass.State :=
  {| hass.static_paths := [];
     hass.frontend_panels :=
       Some {[ "cafe" :=
                 {| hass.component_name := "custom";
                    hass.sidebar_title := "C.A.F.E.";
                    hass.sidebar_icon := "mdi:graph";
                    hass.frontend_url_path := "cafe";
                    hass.url := Some "/cafe_static/assets/index-0ld.js?v=1";
                    hass.config := [];
                    hass.require_admin := true |} ]} |}.

End sample.

(** ** Notions the statements below are phrased in *)

(** The entries of the assets directory of a bundle that match [index-*.js]
    and are not [.map] files, in enumeration order; none when the directory
    is missing. *)
Definition bundle_scripts (here : pathlib.Path) (env : Env) : list string :=
  match fs env (pathlib.str (cafe.www_path here / "assets")%path) with
  | Some (Dir entries) =>
      List.filter
        (fun n => Py.fnmatch "index-*.js" n && negb (Py.endswith n ".map"))
        entries
  | _ => []
  end.

(** The URL path and the admin flag a panel-creation request carries. *)
Definition creation_url_path (c : HostCall) : option string :=
  match c with
  | panel_custom_async_register_panel kw => Some (panel_custom.frontend_url_path kw)
  | frontend_async_register_built_in_panel kw => Some (frontend.frontend_url_path kw)
  | _ => None
  end.

Definition creation_require_admin (c : HostCall) : option bool :=
  match c with
  | panel_custom_async_register_panel kw => Some (panel_custom.require_admin kw)
  | frontend_async_register_built_in_panel kw => Some (frontend.require_admin kw)
  | _ => None
  end.

(** The URL a panel-creation request points the panel at: the module URL of
    a custom panel, the [url] entry of the config of an iframe panel. *)
Definition creation_url (c : HostCall) : option string :=
  match c with
  | panel_custom_async_register_panel kw => Some (panel_custom.module_url kw)
  | frontend_async_register_built_in_panel kw =>
      snd <$> List.find (fun kv => String.eqb kv.1 "url") (frontend.config kw)
  | _ => None
  end.

(** Whether a trace reads the file system. *)
Definition reads_fs (t : list Event) : bool :=
  existsb (fun ev => match ev with EvGlob _ _ | EvExists _ => true | _ => false end) t.

(** The path component of a URL reference: the text up to the first [?] or
    [#]. *)
Fixpoint url_path_component (url : string) : string :=
  match url with
  | EmptyString => EmptyString
  | String c rest =>
      if Ascii.eqb c "?"%char || Ascii.eqb c "#"%char then EmptyString
      else String c (url_path_component rest)
  end.

(** ** Hosts that refuse calls, and further sample deployments *)

Definition is_panel_removal (c : HostCall) : bool :=
  match c with
  | data_frontend_panels_pop _ | frontend_async_remove_panel _ => true
  | _ => false
  end.

(** The host [h], except that it raises [e] on the calls [bad] selects and
    stays in its state when it does. *)
Definition refusing {S} (bad : HostCall -> bool) (e : Exn) (h : Host S)
  : Host S :=
  fun c s => if bad c then (Raised e, s) else h c s.

(** Whether a string holds a [?]. *)
Fixpoint has_question_mark (s : string) : bool :=
  match s with
  | EmptyString => false
  | String c s' => Ascii.eqb c "?"%char || has_question_mark s'
  end.

Module sample2.

(** A bundle in which an older build was left beside the current one. *)
Definition cluttered : Env :=
  {| fs := sample.tree (Some ["index-C0ffee.js"; "index-0ld.js"; "index-0ld.js.map"]);
     clock := 17621784007 # 10 |}.

(** A bundle whose only script has a [?] in its name. *)
Definition odd_name : Env :=
  {| fs := sample.tree (Some ["index-a?b.js"; "index.html"]);
     clock := 17621784007 # 10 |}.

(** A deployment in which [assets] is a regular file. *)
Definition assets_is_file : Env :=
  {| fs := fun p => if String.eqb p sample.assets_dir then Some File else None;
     clock := 17621784007 # 10 |}.

(** A registry that also holds the panel of another integration. *)
Definition energy_panel : hass.Panel :=
  {| hass.component_name := "custom";
     hass.sidebar_title := "Energy";
     hass.sidebar_icon := "mdi:flash";
     hass.frontend_url_path := "energy";
     hass.url := Some "/energy_static/energy.js";
     hass.config := [];
     hass.require_admin := false |}.

Definition crowded : hass.State :=
  {| hass.static_paths := [];
     hass.frontend_panels :=
       Some (<["energy" := energy_panel]> (hass.panels sample.stale)) |}.

(** Hosts that refuse one kind of call. *)
Definition no_static : Host hass.State :=
  refusing is_static_path_call "RuntimeError" (hass.host true).
Definition no_creation : Host hass.State :=
  refusing is_panel_creation "ValueError" (hass.host true).
Definition no_removal : Host hass.State :=
  refusing is_panel_removal "KeyError" (hass.host true).

End sample2.

(** ** The primitives on sample inputs *)

Example fnmatch_hashed : Py.fnmatch "index-*.js" "index-C0ffee.js" = true.
Proof. reflexivity. Qed.

Example fnmatch_empty_hash : Py.fnmatch "index-*.js" "index-.js" = true.
Proof. reflexivity. Qed.

Example fnmatch_map : Py.fnmatch "index-*.js" "index-C0ffee.js.map" = false.
Proof. reflexivity. Qed.

Example fnmatch_css : Py.fnmatch "index-*.js" "index-C0ffee.css" = false.
Proof. reflexivity. Qed.

Example fnmatch_case : Py.fnmatch "index-*.js" "Index-C0ffee.js" = false.
Proof. reflexivity. Qed.

Example endswith_map : Py.endswith "index-C0ffee.js.map" ".map" = true.
Proof. reflexivity. Qed.

Example int_trunc : Py.int_ (17621784007 # 10)%Q = 1762178400%Z.
Proof. reflexivity. Qed.

Example int_trunc_neg : Py.int_ (- (1 # 2))%Q = 0%Z.
Proof. reflexivity. Qed.

Example str_examples :
  Py.str 1762178400 = "1762178400" /\ Py.str 0 = "0" /\ Py.str (-5) = "-5".
Proof. repeat split. Qed.

(** ** Facts about the primitives *)

Lemma append_nil_l (b : string) : "" +:+ b = b.
Proof. reflexivity. Qed.

Lemma append_cons (x : ascii) (a b : string) :
  String x a +:+ b = String x (a +:+ b).
Proof. reflexivity. Qed.

Ltac sapp := rewrite ?append_cons, ?append_nil_l.
Ltac sapp_in H := rewrite ?append_cons, ?append_nil_l in H.

Section PyFacts.

Lemma append_assoc (a b c : string) : (a +:+ b) +:+ c = a +:+ (b +:+ c).
Proof. induction a as [|x a IH]; sapp; [done | by rewrite IH]. Qed.

Lemma fnmatch_star (p n : string) :
  Py.fnmatch (String "*" p) n = true <->
  exists a b, n = a +:+ b /\ Py.fnmatch p b = true.
Proof.
  induction n as [|d n IH].
  - simpl. rewrite orb_false_r. split.
    + intros Hm. by exists EmptyString, EmptyString.
    + intros (a & b & Hab & Hm). destruct a; [|done].
      sapp_in Hab. by subst b.
  - change (Py.fnmatch (String "*" p) (String d n))
      with (Py.fnmatch p (String d n) || Py.fnmatch (String "*" p) n).
    rewrite orb_true_iff, IH. split.
    + intros [Hm | (a & b & -> & Hm)].
      * by exists EmptyString, (String d n).
      * by exists (String d a), b.
    + intros (a & b & Hab & Hm). destruct a as [|x a]; sapp_in Hab.
      * subst b. by left.
      * injection Hab as -> ->. right. by exists a, b.
Qed.

Lemma fnmatch_literal (c : ascii) (p n : string) :
  c <> "*"%char -> c <> "?"%char ->
  Py.fnmatch (String c p) n = true <->
  exists n', n = String c n' /\ Py.fnmatch p n' = true.
Proof.
  intros Hstar Hq. simpl.
  destruct (Ascii.eqb_spec c "*"); [done |].
  destruct (Ascii.eqb_spec c "?"); [done |].
  destruct n as [|d n]; [split; [done | by intros (? & ? & _)] |].
  rewrite andb_true_iff. split.
  - intros [Hc Hm]. apply Ascii.eqb_eq in Hc as ->. by exists n.
  - intros (n' & [= -> ->] & Hm). by rewrite Ascii.eqb_refl.
Qed.

Lemma fnmatch_nil (n : string) : Py.fnmatch "" n = true <-> n = "".
Proof. by destruct n. Qed.

(** The names [Path.glob("index-*.js")] selects. *)
Lemma fnmatch_index_js (n : string) :
  Py.fnmatch "index-*.js" n = true <->
  exists hash, n = "index-" +:+ hash +:+ ".js".
Proof.
  split.
  - intros H.
    repeat (apply fnmatch_literal in H as (? & -> & H); [|done..]).
    apply fnmatch_star in H as (a & b & -> & H).
    repeat (apply fnmatch_literal in H as (? & -> & H); [|done..]).
    apply fnmatch_nil in H as ->. by exists a.
  - intros [hash ->]. sapp.
    repeat (apply fnmatch_literal; [done.. |]; eexists; split; [done |]).
    apply fnmatch_star. by exists hash, ".js".
Qed.

Lemma endswith_spec (s suffix : string) :
  Py.endswith s suffix = true <-> exists a, s = a +:+ suffix.
Proof.
  induction s as [|c s IH].
  - change (Py.endswith "" suffix) with (String.eqb "" suffix || false).
    rewrite orb_false_r, String.eqb_eq. split.
    + intros <-. by exists "".
    + intros [a Ha]. destruct a; [done | discriminate].
  - change (Py.endswith (String c s) suffix)
      with (String.eqb (String c s) suffix || Py.endswith s suffix).
    rewrite orb_true_iff, String.eqb_eq, IH. split.
    + intros [<- | [a ->]]; [by exists "" | by exists (String c a)].
    + intros [[|x a] Ha]; sapp_in Ha; [by left | right].
      injection Ha as -> ->. by exists a.
Qed.

Lemma append_last_char (a b : string) (x y z x' y' z' w' : ascii) :
  a +:+ String x (String y (String z "")) =
  b +:+ String w' (String x' (String y' (String z' ""))) ->
  z = z'.
Proof.
  revert b. induction a as [|c a IH]; intros b Hab.
  - destruct b as [|? [|? [|? [|? b]]]]; sapp_in Hab; discriminate.
  - destruct b as [|? b]; sapp_in Hab.
    + injection Hab as _ Hab.
      destruct a as [|? [|? [|? [|? a]]]]; sapp_in Hab; congruence.
    + injection Hab as _ Hab. by apply IH in Hab.
Qed.

(** A name that [index-*.js] selects ends in [.js], so it never ends in
    [.map]: the filter of the source drops nothing. *)
Lemma index_js_not_map (n : string) :
  Py.fnmatch "index-*.js" n = true -> Py.endswith n ".map" = false.
Proof.
  intros [hash ->]%fnmatch_index_js.
  apply not_true_is_false. intros [a Ha]%endswith_spec.
  rewrite <- append_assoc in Ha.
  by apply append_last_char in Ha.
Qed.

Lemma int_floor (x : Q) : (0 <= x)%Q -> Py.int_ x = Qfloor x.
Proof.
  destruct x as [n d]. unfold Qle, Py.int_, Qfloor. simpl. intros Hn.
  apply Z.quot_div_nonneg; lia.
Qed.

Lemma int_nonneg (x : Q) : (0 <= x)%Q -> (0 <= Py.int_ x)%Z.
Proof.
  intros Hx. rewrite int_floor by done.
  rewrite <- (Qfloor_Z 0). by apply Qfloor_resp_le.
Qed.

Lemma int_mono (x y : Q) :
  (0 <= x)%Q -> (x <= y)%Q -> (Py.int_ x <= Py.int_ y)%Z.
Proof.
  intros Hx Hxy. rewrite !int_floor; [| by apply Qle_trans with x | done].
  by apply Qfloor_resp_le.
Qed.

Lemma int_step (x y : Q) :
  (0 <= x)%Q -> (x + 1 <= y)%Q -> (Py.int_ x < Py.int_ y)%Z.
Proof.
  intros Hx Hxy.
  assert (0 <= y)%Q as Hy.
  { apply Qle_trans with (x + 1)%Q; [|done].
    apply Qle_trans with x; [done |].
    rewrite <- (Qplus_0_r x) at 1. by apply Qplus_le_r. }
  rewrite !int_floor by done.
  cut (Qfloor x + 1 <= Qfloor y)%Z; [lia |].
  rewrite <- (Qfloor_Z (Qfloor x + 1)).
  apply Qfloor_resp_le.
  apply Qle_trans with (x + 1)%Q; [|done].
  rewrite inject_Z_plus. apply Qplus_le_l. apply Qfloor_le.
Qed.

End PyFacts.

Section StrFacts.

Lemma all_digits_uint (d : Decimal.uint) :
  Py.all_digits (NilEmpty.string_of_uint d) = true.
Proof. induction d; simpl; by rewrite ?IHd. Qed.

(** [str] of a non-negative [int] is a non-empty run of decimal digits. *)
Lemma str_digits (n : Z) :
  (0 <= n)%Z -> Py.all_digits (Py.str n) = true /\ Py.str n <> "".
Proof.
  intros Hn. unfold Py.str. destruct n as [|p|p]; [done | | lia].
  cbn [Z.to_int NilZero.string_of_int]. unfold NilZero.string_of_uint.
  pose proof (DecimalPos.Unsigned.to_uint_nonnil p) as Hnil.
  destruct (Pos.to_uint p) eqn:Hp; [done | ..];
    (split; [rewrite <- Hp; apply all_digits_uint | done]).
Qed.

(** Reading back what [str] printed gives the number. *)
Lemma parse_int_str (n : Z) : Py.parse_int (Py.str n) = Some n.
Proof.
  unfold Py.parse_int, Py.str. rewrite NilZero.isi.
  - simpl. by rewrite DecimalZ.of_to.
  - destruct n; simpl; [done | | done].
    intros [= H]. by apply DecimalPos.Unsigned.to_uint_nonnil in H.
  - destruct n; simpl; [done | done |].
    intros [= H]. by apply DecimalPos.Unsigned.to_uint_nonnil in H.
Qed.

Lemma str_inj (m n : Z) : Py.str m = Py.str n -> m = n.
Proof.
  intros H. apply (f_equal Py.parse_int) in H.
  rewrite !parse_int_str in H. by injection H.
Qed.

(** A string is its own path component exactly when it holds neither [?]
    nor [#]. *)
Lemma url_path_component_fixed (a : string) :
  url_path_component a = a <->
  forall c, In c (Stdlib.Strings.String.list_ascii_of_string a) -> c <> "?"%char /\ c <> "#"%char.
Proof.
  induction a as [|x a IH]; [by split |].
  cbn [url_path_component Stdlib.Strings.String.list_ascii_of_string].
  destruct (Ascii.eqb_spec x "?") as [-> | Hq]; cbn [orb].
  - split; [done |]. intros Hall. by destruct (Hall "?"%char (or_introl eq_refl)).
  - destruct (Ascii.eqb_spec x "#") as [-> | Hh].
    + split; [done |]. intros Hall.
      by destruct (Hall "#"%char (or_introl eq_refl)).
    + split.
      * intros [= Ha] c [<- | Hin]; [done |]. by apply IH.
      * intros Hall. f_equal. apply IH. intros c Hin. apply Hall. by right.
Qed.

Lemma url_path_component_app (a b : string) :
  url_path_component a = a ->
  url_path_component (a +:+ String "?" b) = a.
Proof.
  induction a as [|c a IH]; [done |]. sapp. simpl.
  destruct (Ascii.eqb c "?" || Ascii.eqb c "#"); [done |].
  intros [= Ha]. by rewrite IH.
Qed.

(** For a file name without [?] and [#], the path component of the module
    URL is the path of the file below the static prefix. *)
Lemma module_url_path_component (name : string) (v : Z) :
  url_path_component name = name ->
  url_path_component (cafe.module_url name v) = "/cafe_static/assets/" +:+ name.
Proof.
  intros Hname. unfold cafe.module_url.
  sapp. simpl. by rewrite url_path_component_app.
Qed.

End StrFacts.

(** ** Runs compose *)

Section RunFacts.
Context {S : Type} (host : Host S) (env : Env).

(** Sequencing: the second part runs from where the first returned, and
    does not run when the first raised. *)
Lemma run_bind {A B} (p : Prog A) (f : A -> Prog B) (s : S) :
  run host env (bind p f) s
  = match run host env p s with
    | (Ok a, s1, t1) =>
        let '(o, s2, t2) := run host env (f a) s1 in (o, s2, t1 ++ t2)
    | (Raised e, s1, t1) => (Raised e, s1, t1)
    end.
Proof.
  revert s. induction p as [a | e | c k IH | d pat k IH | q k IH | k IH | lvl msg k IH];
    intros s; cbn [bind run].
  - by destruct (run host env (f a) s) as [[o s2] t2].
  - done.
  - destruct (host c s) as [r s1]. rewrite IH.
    destruct (run host env (k r) s1) as [[[a|e] s2] t]; [|done].
    by destruct (run host env (f a) s2) as [[o s3] t2].
  - rewrite IH.
    destruct (run host env (k _) s) as [[[a|e] s2] t]; [|done].
    by destruct (run host env (f a) s2) as [[o s3] t2].
  - rewrite IH.
    destruct (run host env (k _) s) as [[[a|e] s2] t]; [|done].
    by destruct (run host env (f a) s2) as [[o s3] t2].
  - rewrite IH.
    destruct (run host env (k _) s) as [[[a|e] s2] t]; [|done].
    by destruct (run host env (f a) s2) as [[o s3] t2].
  - rewrite IH.
    destruct (run host env k s) as [[[a|e] s2] t]; [|done].
    by destruct (run host env (f a) s2) as [[o s3] t2].
Qed.

(** A bare [except] takes over from the state in which the body raised; what
    the body did until then stays done. *)
Lemma run_try_except {A} (body : Prog A) (handler : Exn -> Prog A) (s : S) :
  run host env (try_except body handler) s
  = match run host env body s with
    | (Ok a, s1, t1) => (Ok a, s1, t1)
    | (Raised e, s1, t1) =>
        let '(o, s2, t2) := run host env (handler e) s1 in (o, s2, t1 ++ t2)
    end.
Proof.
  revert s.
  induction body as [a | e | c k IH | d pat k IH | q k IH | k IH | lvl msg k IH];
    intros s; cbn [try_except run].
  - done.
  - by destruct (run host env (handler e) s) as [[o s2] t2].
  - destruct (host c s) as [r s1]. rewrite IH.
    destruct (run host env (k r) s1) as [[[a|e] s2] t]; [done |].
    by destruct (run host env (handler e) s2) as [[o s3] t2].
  - rewrite IH.
    destruct (run host env (k _) s) as [[[a|e] s2] t]; [done |].
    by destruct (run host env (handler e) s2) as [[o s3] t2].
  - rewrite IH.
    destruct (run host env (k _) s) as [[[a|e] s2] t]; [done |].
    by destruct (run host env (handler e) s2) as [[o s3] t2].
  - rewrite IH.
    destruct (run host env (k _) s) as [[[a|e] s2] t]; [done |].
    by destruct (run host env (handler e) s2) as [[o s3] t2].
  - rewrite IH.
    destruct (run host env k s) as [[[a|e] s2] t]; [done |].
    by destruct (run host env (handler e) s2) as [[o s3] t2].
Qed.

(** A body whose handler is [pass] never raises. *)
Lemma try_except_pass_ok (body : Prog unit) (s : S) :
  outcome host env (try_except body (fun _ => mret tt)) s = Ok tt.
Proof.
  unfold outcome. rewrite run_try_except.
  by destruct (run host env body s) as [[[[]|e] s1] t1].
Qed.

End RunFacts.

(** ** Runs of [cafe.async_register_panel] *)

(** The three host calls of a run, as the source builds them. *)
Local Abbreviation static_request here :=
  (http_async_register_static_paths
     [ {| url_path := "/cafe_static";
          path := pathlib.str (cafe.www_path here);
          cache_headers := false |} ]).
Local Abbreviation creation_request DOMAIN PANEL_TITLE PANEL_ICON name now :=
  (panel_custom_async_register_panel
     {| panel_custom.webcomponent_name := cafe.PANEL_NAME DOMAIN;
        panel_custom.frontend_url_path := DOMAIN;
        panel_custom.module_url := cafe.module_url name (cafe.cache_bust now);
        panel_custom.sidebar_title := PANEL_TITLE;
        panel_custom.sidebar_icon := PANEL_ICON;
        panel_custom.require_admin := true;
        panel_custom.config := [];
        panel_custom.config_panel_domain := DOMAIN |}).

Section CafeRuns.
Variables (DOMAIN PANEL_TITLE PANEL_ICON : string) (here : pathlib.Path).
Context {S : Type} (host : Host S) (env : Env).

Local Abbreviation register :=
  (cafe.async_register_panel DOMAIN PANEL_TITLE PANEL_ICON here).
Local Abbreviation assets := (cafe.www_path here / "assets")%path.
Local Abbreviation static_call := (static_request here).
Local Abbreviation pop_call := (data_frontend_panels_pop DOMAIN).
Local Abbreviation create_call name :=
  (creation_request DOMAIN PANEL_TITLE PANEL_ICON name (clock env)).

(** The list [js_files] of the source holds the bundle scripts, as paths
    below the assets directory. *)
Lemma js_files_bundle_scripts :
  List.filter cafe.not_map (glob env assets "index-*.js")
  = map (pathlib.truediv assets) (bundle_scripts here env).
Proof.
  unfold glob, bundle_scripts.
  destruct (fs env (pathlib.str assets)) as [[|entries]|];
  [reflexivity | | reflexivity].
  induction entries as [|n entries IH]; [reflexivity |].
  cbn [List.filter].
  destruct (Py.fnmatch "index-*.js" n); cbn [andb map List.filter];
    [| exact IH].
  unfold cafe.not_map at 1. cbn [pathlib.name pathlib.truediv].
  destruct (negb (Py.endswith n ".map")); cbn [map]; [f_equal |]; exact IH.
Qed.

Lemma run_register_refused (s : S) (e : Exn) :
  (host static_call s).1 = Raised e ->
  run host env register s = (Raised e, after host static_call s, [EvCall static_call]).
Proof.
  unfold after. intros Hst. unfold cafe.async_register_panel, call. cbn.
  destruct (host static_call s) as [r s1]. simpl in *. by subst r.
Qed.

Lemma run_register_abort (s : S) :
  accepts host static_call s ->
  bundle_scripts here env = [] ->
  run host env register s =
    (Ok tt, after host static_call s,
     [ EvCall static_call;
       EvGlob assets "index-*.js";
       EvLog ERROR "No JavaScript files found in assets directory";
       EvExists assets;
       EvLog ERROR ("www path: " +:+ pathlib.str (cafe.www_path here) +:+
                    ", assets exist: " +:+ Py.str_bool (exists_ env assets)) ]).
Proof.
  unfold accepts, after. intros Hst Hnone.
  unfold cafe.async_register_panel, call. cbn.
  destruct (host static_call s) as [r s1]. simpl in *. subst r. cbn.
  rewrite js_files_bundle_scripts, Hnone. by cbn.
Qed.

Lemma run_register_found (s : S) (name : string) (rest : list string) :
  accepts host static_call s ->
  bundle_scripts here env = name :: rest ->
  let s1 := after host static_call s in
  let s2 := after host pop_call s1 in
  run host env register s =
    (match (host (create_call name) s2).1 with
     | Ok _ => Ok tt
     | Raised e => Raised e
     end,
     after host (create_call name) s2,
     [ EvCall static_call; EvGlob assets "index-*.js"; EvTime; EvCall pop_call ]
     ++ (if is_ok (host pop_call s1).1
         then [ EvLog INFO "Removed any existing panel registration" ]
         else [])
     ++ [ EvCall (create_call name) ]
     ++ (if is_ok (host (create_call name) s2).1
         then [ EvLog INFO ("C.A.F.E. panel registered successfully with module: "
                            +:+ name) ]
         else [])).
Proof.
  unfold accepts, after. intros Hst Hfound.
  unfold cafe.async_register_panel, call. cbn.
  destruct (host static_call s) as [r s1]. simpl in *. subst r. cbn.
  rewrite js_files_bundle_scripts, Hfound. cbn.
  destruct (host pop_call s1) as [[[]|e] s2]; cbn;
    destruct (host (create_call name) s2) as [[[]|e'] s3]; by cbn.
Qed.

Lemma creations_register_found (s : S) (name : string) (rest : list string) :
  accepts host static_call s ->
  bundle_scripts here env = name :: rest ->
  calls (trace host env register s) = [static_call; pop_call; create_call name] /\
  panel_creations (trace host env register s) = [create_call name].
Proof.
  intros Hst Hfound. unfold panel_creations, trace.
  rewrite (run_register_found s name rest Hst Hfound). cbn [snd].
  destruct (is_ok _), (is_ok _); by cbn.
Qed.

(** Whether or not the host accepts the static-path registration, a run on
    a bundle without scripts issues no panel-creation request. *)
Lemma creations_register_none (s : S) :
  bundle_scripts here env = [] ->
  panel_creations (trace host env register s) = [].
Proof.
  intros Hnone. unfold panel_creations, trace.
  destruct (host static_call s).1 as [[]|e] eqn:Hst.
  - by rewrite (run_register_abort s Hst Hnone).
  - by rewrite (run_register_refused s e Hst).
Qed.

(** C1, as amended: when the assets directory of the bundle holds exactly
    one entry matching [index-*.js] that is not a [.map] file, and the host
    accepts the static-path registration and the panel creation,
    [async_register_panel] returns normally. It has registered the static
    prefix [/cafe_static], and the single panel-creation request it issues
    carries as module URL the string [/cafe_static/assets/<that name>]
    followed by [?v=] and the cache-busting value only. The name is put into
    the URL as it is, without URL-encoding; that string is the path
    component of the URL when the name holds neither [?] nor [#]. *)
Theorem register_single_script (s : S) (name : string) :
  bundle_scripts here env = [name] ->
  accepts host static_call s ->
  accepts host (create_call name)
    (after host pop_call (after host static_call s)) ->
  outcome host env register s = Ok tt /\
  List.filter is_static_path_call (calls (trace host env register s))
    = [static_call] /\
  exists kw,
    panel_creations (trace host env register s)
      = [panel_custom_async_register_panel kw] /\
    panel_custom.module_url kw
      = "/cafe_static/assets/" +:+ name +:+ "?v=" +:+ Py.str (Py.int_ (clock env)) /\
    (url_path_component name = name ->
     url_path_component (panel_custom.module_url kw)
       = "/cafe_static/assets/" +:+ name).
Proof.
  intros Hone Hst Hcreate.
  destruct (creations_register_found s name [] Hst Hone) as [Hcalls Hcreations].
  split; [| split].
  - unfold outcome. rewrite (run_register_found s name [] Hst Hone). cbn [fst].
    by rewrite Hcreate.
  - by rewrite Hcalls.
  - eexists. split; [exact Hcreations |]. split; [done |].
    apply module_url_path_component.
Qed.

(** C2: when the assets directory holds no entry matching [index-*.js]
    (other than [.map] files) and the host accepts the static-path
    registration, [async_register_panel] returns without raising, the only
    host call it has made is the static-path registration, and no
    panel-creation request is issued: the host is left in the state the
    static-path registration produced. The failure is logged, twice, at
    level ERROR. *)
Theorem register_no_script (s : S) :
  bundle_scripts here env = [] ->
  accepts host static_call s ->
  outcome host env register s = Ok tt /\
  panel_creations (trace host env register s) = [] /\
  calls (trace host env register s) = [static_call] /\
  final host env register s = after host static_call s /\
  log_records (trace host env register s)
    = [ (ERROR, "No JavaScript files found in assets directory");
        (ERROR, "www path: " +:+ pathlib.str (cafe.www_path here) +:+
                ", assets exist: " +:+ Py.str_bool (exists_ env assets)) ].
Proof.
  intros Hnone Hst. unfold outcome, final, panel_creations, trace.
  by rewrite (run_register_abort s Hst Hnone).
Qed.

(** C5: the removal of an existing panel entry is advisory. Once a script
    is found, the run issues the removal and then the panel-creation request
    whatever the removal did, whether it returned or raised; the exception of
    a failed removal never reaches the caller, and the run ends as the panel
    creation ends. *)
Theorem removal_is_advisory (s : S) (name : string) (rest : list string) :
  bundle_scripts here env = name :: rest ->
  accepts host static_call s ->
  let s1 := after host static_call s in
  let s2 := after host pop_call s1 in
  calls (trace host env register s) = [static_call; pop_call; create_call name] /\
  final host env register s = after host (create_call name) s2 /\
  outcome host env register s
    = match (host (create_call name) s2).1 with
      | Ok _ => Ok tt
      | Raised e => Raised e
      end.
Proof.
  intros Hfound Hst s1 s2. split; [by apply (creations_register_found s name rest) |].
  unfold final, outcome. by rewrite (run_register_found s name rest Hst Hfound).
Qed.

(** Every run issues at most one panel-creation request, and issues it
    exactly when the static-path registration returned and a script was
    found; the request is for the first script. *)
Lemma creations_register (s : S) :
  panel_creations (trace host env register s)
  = if is_ok (host static_call s).1
    then match bundle_scripts here env with
         | [] => []
         | name :: _ => [create_call name]
         end
    else [].
Proof.
  destruct (host static_call s).1 as [[]|e] eqn:Hst; cbn [is_ok].
  - destruct (bundle_scripts here env) as [|name rest] eqn:Hscripts.
    + by apply creations_register_none.
    + by apply (creations_register_found s name rest).
  - unfold panel_creations, trace. by rewrite (run_register_refused s e Hst).
Qed.

End CafeRuns.

(** ** The cache-busting value *)

Section CacheBust.
Variables (DOMAIN PANEL_TITLE PANEL_ICON : string) (here : pathlib.Path).
Context {S : Type} (host : Host S).

Local Abbreviation register :=
  (cafe.async_register_panel DOMAIN PANEL_TITLE PANEL_ICON here).

(** C8: the cache-busting value of a registration is [int] of the clock
    reading. For clock readings that are not negative (seconds since the
    epoch) it is a non-negative integer, printed in the module URL as a
    non-empty run of decimal digits that reads back as the same number; it
    does not decrease as the clock advances, and two registrations at least
    one second apart carry different values, the later the larger. *)
Theorem cache_bust_fresh (env1 env2 : Env) (s1 s2 : S)
    (name1 name2 : string) (rest1 rest2 : list string) :
  bundle_scripts here env1 = name1 :: rest1 ->
  bundle_scripts here env2 = name2 :: rest2 ->
  accepts host (static_request here) s1 ->
  accepts host (static_request here) s2 ->
  (0 <= clock env1)%Q ->
  (clock env1 + 1 <= clock env2)%Q ->
  exists v1 v2 : Z,
    omap creation_url (panel_creations (trace host env1 register s1))
      = ["/cafe_static/assets/" +:+ name1 +:+ "?v=" +:+ Py.str v1] /\
    omap creation_url (panel_creations (trace host env2 register s2))
      = ["/cafe_static/assets/" +:+ name2 +:+ "?v=" +:+ Py.str v2] /\
    v1 = cafe.cache_bust (clock env1) /\
    v2 = cafe.cache_bust (clock env2) /\
    (0 <= v1 < v2)%Z /\
    Py.all_digits (Py.str v1) = true /\ Py.all_digits (Py.str v2) = true /\
    Py.str v1 <> "" /\ Py.str v2 <> "" /\
    Py.parse_int (Py.str v1) = Some v1 /\ Py.parse_int (Py.str v2) = Some v2 /\
    Py.str v1 <> Py.str v2.
Proof.
  intros Hf1 Hf2 Hst1 Hst2 H0 Hstep.
  exists (cafe.cache_bust (clock env1)), (cafe.cache_bust (clock env2)).
  destruct (creations_register_found DOMAIN PANEL_TITLE PANEL_ICON here
              host env1 s1 name1 rest1 Hst1 Hf1) as [_ ->].
  destruct (creations_register_found DOMAIN PANEL_TITLE PANEL_ICON here
              host env2 s2 name2 rest2 Hst2 Hf2) as [_ ->].
  assert (0 <= cafe.cache_bust (clock env1) < cafe.cache_bust (clock env2))%Z
    as Hlt by (split; [by apply int_nonneg | by apply int_step]).
  destruct (str_digits (cafe.cache_bust (clock env1))) as [Hd1 Hn1]; [lia |].
  destruct (str_digits (cafe.cache_bust (clock env2))) as [Hd2 Hn2]; [lia |].
  repeat split; try done; try lia; try apply parse_int_str.
  intros Heq%str_inj. lia.
Qed.

End CacheBust.

(** The value never decreases as the clock advances. *)
Lemma cache_bust_monotone (t1 t2 : Q) :
  (0 <= t1)%Q -> (t1 <= t2)%Q -> (cafe.cache_bust t1 <= cafe.cache_bust t2)%Z.
Proof. apply int_mono. Qed.

(** Before the epoch [int] rounds up, toward zero, and two readings a second
    apart can share a value; this is why the statement above asks for a clock
    reading that is not negative. *)
Lemma cache_bust_before_epoch :
  cafe.cache_bust (- (1 # 2)) = cafe.cache_bust (1 # 2).
Proof. reflexivity. Qed.

(** ** Aborted runs leave the static path registered *)

Section AbortedRuns.
Variables (DOMAIN PANEL_TITLE PANEL_ICON : string) (here : pathlib.Path).
Context {S : Type} (host : Host S) (env : Env).

Local Abbreviation register :=
  (cafe.async_register_panel DOMAIN PANEL_TITLE PANEL_ICON here).
Local Abbreviation assets := (cafe.www_path here / "assets")%path.

Lemma served_register_static_paths (c : StaticPathConfig) (hs : hass.State) :
  hass.served (url_path c) (hass.register_static_paths [c] hs) = true.
Proof.
  unfold hass.served, hass.register_static_paths. cbn [fold_left hass.static_paths].
  destruct (existsb _ (hass.static_paths hs)) eqn:Hin; [done |].
  rewrite existsb_app. cbn [existsb]. by rewrite String.eqb_refl, orb_true_r.
Qed.

(** C9: the static path is registered before the assets are looked for. On
    a bundle without scripts the run starts with the static-path
    registration, then globs, and makes no further host call, so the host
    stays in the state the static-path registration produced: nothing undoes
    it. On the reference host the prefix [/cafe_static] is served after the
    aborted run, and the panel registry is as it was. *)
Theorem static_path_survives_abort (s : S) :
  bundle_scripts here env = [] ->
  accepts host (static_request here) s ->
  (exists t,
     trace host env register s
       = EvCall (static_request here) :: EvGlob assets "index-*.js" :: t /\
     calls t = []) /\
  outcome host env register s = Ok tt /\
  final host env register s = after host (static_request here) s /\
  forall (strict : bool) (hs : hass.State),
    outcome (hass.host strict) env register hs = Ok tt /\
    hass.served "/cafe_static" (final (hass.host strict) env register hs) = true /\
    hass.frontend_panels (final (hass.host strict) env register hs)
      = hass.frontend_panels hs.
Proof.
  intros Hnone Hst. unfold outcome, final, trace.
  rewrite (run_register_abort _ _ _ _ _ _ s Hst Hnone). cbn [fst snd].
  split; [by eexists |]. do 2 (split; [done |]).
  intros strict hs.
  rewrite (run_register_abort DOMAIN PANEL_TITLE PANEL_ICON here
             (hass.host strict) env hs eq_refl Hnone).
  cbn [fst snd]. split; [done |]. split; [|done].
  apply (served_register_static_paths
           {| url_path := "/cafe_static";
              path := pathlib.str (cafe.www_path here);
              cache_headers := false |}).
Qed.

End AbortedRuns.

(** ** Runs of [flow_automator] *)

Section FlowAutomator.
Variable here : pathlib.Path.
Context {ConfigType ConfigEntry : Type}.
Context {S : Type} (host : Host S) (env : Env).

Local Abbreviation static_call :=
  (http_register_static_path
     "/flow_automator_static" (pathlib.str (here / "www")%path) false).
Local Abbreviation iframe_call :=
  (frontend_async_register_built_in_panel
     {| frontend.component_name := "iframe";
        frontend.sidebar_title := flow_automator.PANEL_TITLE;
        frontend.sidebar_icon := flow_automator.PANEL_ICON;
        frontend.frontend_url_path := "flow-automator";
        frontend.config := [("url", "/flow_automator_static/index.html")];
        frontend.require_admin := true |}).

Lemma run_async_setup (config : ConfigType) (s : S) :
  run host env (flow_automator.async_setup here config) s
  = match (host static_call s).1 with
    | Raised e => (Raised e, after host static_call s, [EvCall static_call])
    | Ok _ =>
        let s1 := after host static_call s in
        match (host iframe_call s1).1 with
        | Raised e =>
            (Raised e, after host iframe_call s1,
             [EvCall static_call; EvCall iframe_call])
        | Ok _ =>
            (Ok true, after host iframe_call s1,
             [EvCall static_call; EvCall iframe_call;
              EvLog INFO "C.A.F.E. panel registered"])
        end
    end.
Proof.
  unfold flow_automator.async_setup, call, after. cbn.
  destruct (host static_call s) as [[[]|e] s1]; cbn; [|done].
  by destruct (host iframe_call s1) as [[[]|e] s2]; cbn.
Qed.

Lemma creations_async_setup (config : ConfigType) (s : S) :
  panel_creations (trace host env (flow_automator.async_setup here config) s)
  = if is_ok (host static_call s).1 then [iframe_call] else [].
Proof.
  unfold panel_creations, trace. rewrite run_async_setup.
  destruct (host static_call s).1 as [[]|e]; cbn; [|done].
  destruct (host iframe_call (after host static_call s)).1 as [[]|e']; reflexivity.
Qed.

(** C6: the iframe registration points the panel at
    [/flow_automator_static/index.html], below the static prefix it has just
    registered. The URL has no query, so no cache-busting parameter, and the
    run never reads the file system: it is the same whatever the assets
    directory holds. The request is issued whenever the static-path
    registration returns. *)
Theorem iframe_points_at_index_html (config : ConfigType) (s : S) :
  omap creation_url
    (panel_creations (trace host env (flow_automator.async_setup here config) s))
    = (if is_ok (host static_call s).1
       then ["/flow_automator_static/index.html"] else []) /\
  List.filter is_static_path_call
    (calls (trace host env (flow_automator.async_setup here config) s))
    = [static_call] /\
  url_path_component "/flow_automator_static/index.html"
    = "/flow_automator_static/index.html" /\
  reads_fs (trace host env (flow_automator.async_setup here config) s) = false /\
  forall env' : Env,
    run host env' (flow_automator.async_setup here config) s
    = run host env (flow_automator.async_setup here config) s.
Proof.
  split; [by rewrite creations_async_setup; destruct (is_ok _) |].
  unfold trace. rewrite run_async_setup.
  split; [| split; [done | split]].
  - destruct (host static_call s).1 as [[]|e]; [|reflexivity]. cbv zeta.
    destruct (host iframe_call (after host static_call s)).1 as [[]|e']; reflexivity.
  - destruct (host static_call s).1 as [[]|e]; [|reflexivity]. cbv zeta.
    destruct (host iframe_call (after host static_call s)).1 as [[]|e']; reflexivity.
  - intros env'. unfold flow_automator.async_setup, call, after. cbn.
    destruct (host static_call s) as [[[]|e] s1]; cbn; [|done].
    by destruct (host iframe_call s1) as [[[]|e] s2]; cbn.
Qed.

(** C10: the config-entry hooks do nothing. [async_unload_entry], like
    [async_setup_entry], returns [True] from every host state, makes no host
    call at all (no panel removal, no static-path call), logs nothing, and
    leaves the host state as it was. *)
Theorem entry_hooks_do_nothing (entry : ConfigEntry) (s : S) :
  run host env (flow_automator.async_unload_entry entry) s = (Ok true, s, []) /\
  run host env (flow_automator.async_setup_entry entry) s = (Ok true, s, []).
Proof. by split. Qed.

End FlowAutomator.

(** ** What the panel-creation requests carry *)

(** C4, as amended: every panel-creation request is admin-gated. The
    custom-element registrar passes its domain as the URL path of the
    panel. The iframe registrar passes [flow-automator], with a hyphen, which
    is not its domain [flow_automator]. *)
Theorem creation_requests_admin_gated {S ConfigType : Type} (host : Host S)
    (env : Env) (s : S) :
  (forall (DOMAIN PANEL_TITLE PANEL_ICON : string) (here : pathlib.Path),
     Forall (fun c => creation_url_path c = Some DOMAIN /\
                      creation_require_admin c = Some true)
       (panel_creations
          (trace host env
             (cafe.async_register_panel DOMAIN PANEL_TITLE PANEL_ICON here) s))) /\
  (forall (here : pathlib.Path) (config : ConfigType),
     Forall (fun c => creation_url_path c = Some "flow-automator" /\
                      creation_require_admin c = Some true)
       (panel_creations
          (trace host env (flow_automator.async_setup here config) s))) /\
  "flow-automator" <> flow_automator.DOMAIN.
Proof.
  split; [| split; [| done]].
  - intros D T I here. rewrite creations_register.
    destruct (is_ok _); [|constructor].
    destruct (bundle_scripts here env); repeat constructor.
  - intros here config. rewrite creations_async_setup.
    destruct (is_ok _); repeat constructor.
Qed.

(** ** The reference host *)

Section Registry.

Lemma filter_key_length {V} (l : list (string * V)) (k : string) :
  NoDup l.*1 ->
  length (List.filter (fun kv => String.eqb kv.1 k) l)
  = if bool_decide (k ∈ l.*1) then 1 else 0.
Proof.
  induction l as [|[k' v] l IH]; [done |].
  rewrite fmap_cons, NoDup_cons. cbn [fst List.filter]. intros [Hfresh Hnodup].
  destruct (String.eqb_spec k' k) as [-> | Hne].
  - cbn [length]. rewrite IH by done.
    rewrite (bool_decide_eq_false_2 _ Hfresh).
    by rewrite bool_decide_eq_true_2 by (by left).
  - rewrite IH by done.
    rewrite (bool_decide_ext (k ∈ k' :: l.*1) (k ∈ l.*1)); [done |].
    rewrite elem_of_cons. split; [intros [? | ?]; [congruence | done] | by right].
Qed.

(** The registry is a dict: a key has one entry or none. *)
Lemma entries_for_lookup (key : string) (hs : hass.State) :
  length (hass.entries_for key hs)
  = match hass.panels hs !! key with Some _ => 1 | None => 0 end.
Proof.
  unfold hass.entries_for.
  rewrite filter_key_length by apply NoDup_fst_map_to_list.
  destruct (hass.panels hs !! key) as [p|] eqn:Hkey.
  - rewrite bool_decide_eq_true_2; [done |]. apply list_elem_of_fmap.
    exists (key, p). split; [done |]. by apply elem_of_map_to_list.
  - rewrite bool_decide_eq_false_2; [done |].
    intros [[k p] [-> Hin]]%list_elem_of_fmap.
    apply elem_of_map_to_list in Hin. simpl in *. congruence.
Qed.

Lemma entries_for_at_most_one (key : string) (hs : hass.State) :
  length (hass.entries_for key hs) <= 1.
Proof. rewrite entries_for_lookup. destruct (_ !! _); lia. Qed.

Lemma panels_pop (key : string) (hs : hass.State) :
  hass.panels (hass.frontend_panels_pop key hs) = delete key (hass.panels hs).
Proof.
  unfold hass.panels, hass.frontend_panels_pop. cbn.
  destruct (hass.frontend_panels hs); cbn; [done | by rewrite delete_empty].
Qed.

Lemma panels_remove (key : string) (hs : hass.State) :
  hass.panels (hass.remove_panel key hs) = delete key (hass.panels hs).
Proof. apply panels_pop. Qed.

(** After the [pop] of its key, a panel is accepted by a strict host too. *)
Lemma register_panel_after_pop (strict : bool) (p : hass.Panel) (hs : hass.State) :
  hass.register_panel strict p (hass.frontend_panels_pop (hass.frontend_url_path p) hs)
  = (Ok tt,
     {| hass.static_paths := hass.static_paths hs;
        hass.frontend_panels :=
          Some (<[hass.frontend_url_path p := p]>
                  (delete (hass.frontend_url_path p) (hass.panels hs))) |}).
Proof.
  unfold hass.register_panel. rewrite panels_pop, lookup_delete_eq.
  rewrite bool_decide_eq_false_2 by (by intros [? ?]).
  by rewrite andb_false_r.
Qed.

End Registry.

Section Reference.
Variables (DOMAIN PANEL_TITLE PANEL_ICON : string) (here : pathlib.Path).
Variable strict : bool.

Local Abbreviation register :=
  (cafe.async_register_panel DOMAIN PANEL_TITLE PANEL_ICON here).
Local Abbreviation unregister := (cafe.async_unregister_panel DOMAIN).
Local Abbreviation new_panel name now :=
  {| hass.component_name := "custom";
     hass.sidebar_title := PANEL_TITLE;
     hass.sidebar_icon := PANEL_ICON;
     hass.frontend_url_path := DOMAIN;
     hass.url := Some (cafe.module_url name (cafe.cache_bust now));
     hass.config := [];
     hass.require_admin := true |}.

(** A registration that finds a script succeeds on the reference host, strict
    or not, and replaces whatever was registered under the domain. *)
Lemma register_on_reference (env : Env) (hs : hass.State)
    (name : string) (rest : list string) :
  bundle_scripts here env = name :: rest ->
  outcome (hass.host strict) env register hs = Ok tt /\
  hass.panels (final (hass.host strict) env register hs)
  = <[DOMAIN := new_panel name (clock env)]> (delete DOMAIN (hass.panels hs)).
Proof.
  intros Hfound. unfold outcome, final.
  rewrite (run_register_found DOMAIN PANEL_TITLE PANEL_ICON here
             (hass.host strict) env hs name rest eq_refl Hfound).
  cbn [fst snd]. unfold after. cbn [hass.host snd fst].
  pose proof (register_panel_after_pop strict (new_panel name (clock env))
                (hass.register_static_paths
                   [ {| url_path := "/cafe_static";
                        path := pathlib.str (cafe.www_path here);
                        cache_headers := false |} ] hs)) as Hreg.
  cbn [hass.frontend_url_path] in Hreg.
  unfold hass.custom_panel. cbn [panel_custom.sidebar_title
    panel_custom.sidebar_icon panel_custom.frontend_url_path
    panel_custom.module_url panel_custom.config panel_custom.require_admin].
  rewrite Hreg. by cbn.
Qed.

(** C3: registering twice in succession leaves exactly one panel entry for
    the domain. On the reference host, whether or not it refuses to overwrite
    an entry, two registrations that each find a script both succeed; after
    each of them the registry holds one entry for the domain, after the
    second the one of the second registration; and no state of the registry
    ever holds more than one entry for a key. The second registration
    succeeds on a strict host because the entry of the first is removed
    before the new one is created. *)
Theorem reregister_single_entry (env1 env2 : Env) (hs : hass.State)
    (name1 name2 : string) (rest1 rest2 : list string) :
  bundle_scripts here env1 = name1 :: rest1 ->
  bundle_scripts here env2 = name2 :: rest2 ->
  let hs1 := final (hass.host strict) env1 register hs in
  let hs2 := final (hass.host strict) env2 register hs1 in
  outcome (hass.host strict) env1 register hs = Ok tt /\
  outcome (hass.host strict) env2 register hs1 = Ok tt /\
  length (hass.entries_for DOMAIN hs1) = 1 /\
  length (hass.entries_for DOMAIN hs2) = 1 /\
  hass.panels hs2 !! DOMAIN = Some (new_panel name2 (clock env2)) /\
  forall (key : string) (st : hass.State), length (hass.entries_for key st) <= 1.
Proof.
  intros Hf1 Hf2 hs1 hs2.
  destruct (register_on_reference env1 hs name1 rest1 Hf1) as [Ho1 Hp1].
  destruct (register_on_reference env2 hs1 name2 rest2 Hf2) as [Ho2 Hp2].
  fold hs1 in Hp1. fold hs2 in Hp2.
  repeat split; try done.
  - by rewrite entries_for_lookup, Hp1, lookup_insert_eq.
  - by rewrite entries_for_lookup, Hp2, lookup_insert_eq.
  - by rewrite Hp2, lookup_insert_eq.
  - apply entries_for_at_most_one.
Qed.

(** C7: on the reference host [async_unregister_panel] returns normally from
    every registry state, also one without an entry for the domain, and
    leaves no entry for the domain; the other entries are untouched.
    Unregistering again returns normally and changes nothing. *)
Theorem unregister_idempotent (env : Env) (hs : hass.State) :
  let hs1 := final (hass.host strict) env unregister hs in
  outcome (hass.host strict) env unregister hs = Ok tt /\
  hass.panels hs1 = delete DOMAIN (hass.panels hs) /\
  length (hass.entries_for DOMAIN hs1) = 0 /\
  outcome (hass.host strict) env unregister hs1 = Ok tt /\
  final (hass.host strict) env unregister hs1 = hs1.
Proof.
  intros hs1. subst hs1. unfold outcome, final. cbn.
  split; [done |]. split; [apply panels_remove |].
  split; [by rewrite entries_for_lookup, panels_remove, lookup_delete_eq |].
  split; [done |].
  unfold hass.remove_panel. cbn. f_equal.
  destruct (hass.frontend_panels hs); cbn; [|done].
  by rewrite delete_delete_eq.
Qed.

End Reference.

(** Whatever the host, [async_unregister_panel] adds no failure of its own:
    it raises exactly when the removal call of the host does. *)
Lemma unregister_outcome {S} (host : Host S) (env : Env) (DOMAIN : string) (s : S) :
  outcome host env (cafe.async_unregister_panel DOMAIN) s
  = match (host (frontend_async_remove_panel DOMAIN) s).1 with
    | Ok _ => Ok tt
    | Raised e => Raised e
    end.
Proof.
  unfold outcome, cafe.async_unregister_panel, call. cbn.
  by destruct (host (frontend_async_remove_panel DOMAIN) s) as [[[]|e] s1].
Qed.

(** ** The statements on the sample deployments *)

(** The iframe registrar does not pass its domain as the URL path of the
    panel: on the sample deployment the request it issues carries
    [flow-automator], and the domain is [flow_automator]. *)
Lemma iframe_url_path_is_not_the_domain :
  ~ Forall (fun c => creation_url_path c = Some flow_automator.DOMAIN /\
                     creation_require_admin c = Some true)
      (panel_creations
         (trace (hass.host true) sample.built sample.setup hass.empty)).
Proof.
  intros Hall. unfold sample.setup in Hall.
  rewrite creations_async_setup in Hall. cbn [hass.host fst is_ok] in Hall.
  apply Forall_cons in Hall as [[Hpath _] _]. discriminate Hpath.
Qed.

(** A script name is put into the module URL as it is. For the bundle whose
    only script is [index-a?b.js] the registration succeeds, and the path
    component of the module URL it passes ends at the [?] of the name: it is
    [/cafe_static/assets/index-a], not the path of the script. *)
Lemma script_name_is_not_url_encoded :
  bundle_scripts sample.here sample2.odd_name = ["index-a?b.js"] /\
  outcome (hass.host true) sample2.odd_name sample.register hass.empty = Ok tt /\
  omap creation_url
    (panel_creations
       (trace (hass.host true) sample2.odd_name sample.register hass.empty))
  = ["/cafe_static/assets/index-a?b.js?v=1762178400"] /\
  ~ Forall (fun c => url_path_component <$> creation_url c
                     = Some ("/cafe_static/assets/" +:+ "index-a?b.js"))
      (panel_creations
         (trace (hass.host true) sample2.odd_name sample.register hass.empty)).
Proof.
  assert (panel_creations
            (trace (hass.host true) sample2.odd_name sample.register hass.empty)
          = [creation_request "cafe" "C.A.F.E." "mdi:graph" "index-a?b.js"
               (clock sample2.odd_name)]) as Hreq.
  { unfold sample.register. rewrite creations_register.
    reflexivity. }
  split; [reflexivity |]. split; [reflexivity |]. rewrite Hreq.
  split; [reflexivity |].
  intros Hall. apply Forall_cons in Hall as [Hpath _].
  vm_compute in Hpath. discriminate Hpath.
Qed.

Example iframe_request_on_sample :
  map creation_url_path
    (panel_creations (trace (hass.host true) sample.built sample.setup hass.empty))
  = [Some "flow-automator"].
Proof. reflexivity. Qed.

Lemma register_single_script_witness :
  bundle_scripts sample.here sample.built = ["index-C0ffee.js"] /\
  outcome (hass.host true) sample.built sample.register sample.stale = Ok tt /\
  omap creation_url
    (panel_creations
       (trace (hass.host true) sample.built sample.register sample.stale))
  = ["/cafe_static/assets/index-C0ffee.js?v=1762178400"] /\
  omap (fun c => url_path_component <$> creation_url c)
    (panel_creations
       (trace (hass.host true) sample.built sample.register sample.stale))
  = ["/cafe_static/assets/index-C0ffee.js"].
Proof.
  destruct (register_single_script "cafe" "C.A.F.E." "mdi:graph" sample.here
              (hass.host true) sample.built sample.stale "index-C0ffee.js")
    as (Hok & _ & kw & Hreq & Hurl & Hpath).
  - reflexivity.
  - reflexivity.
  - vm_compute. reflexivity.
  - split; [reflexivity |]. split; [exact Hok |].
    unfold sample.register. rewrite Hreq.
    cbn [omap list_omap creation_url fmap option_fmap option_map].
    rewrite (Hpath eq_refl), Hurl. split; reflexivity.
Defined.

Lemma register_no_script_witness :
  bundle_scripts sample.here sample.unbuilt = [] /\
  outcome (hass.host true) sample.unbuilt sample.register sample.stale = Ok tt /\
  panel_creations
    (trace (hass.host true) sample.unbuilt sample.register sample.stale) = [].
Proof.
  destruct (register_no_script "cafe" "C.A.F.E." "mdi:graph" sample.here
              (hass.host true) sample.unbuilt sample.stale)
    as (Hok & Hnone & _).
  - reflexivity.
  - reflexivity.
  - split; [reflexivity |]. split; [exact Hok | exact Hnone].
Defined.

Lemma removal_is_advisory_witness :
  (faulty_host (data_frontend_panels_pop "cafe") tt).1 = Raised "AttributeError" /\
  outcome faulty_host sample.built sample.register tt = Ok tt /\
  map is_panel_creation
    (calls (trace faulty_host sample.built sample.register tt))
  = [false; false; true].
Proof.
  destruct (removal_is_advisory "cafe" "C.A.F.E." "mdi:graph" sample.here
              faulty_host sample.built tt "index-C0ffee.js" [])
    as (Hcalls & _ & Hok).
  - reflexivity.
  - reflexivity.
  - split; [reflexivity |]. split; [exact Hok |].
    unfold sample.register. rewrite Hcalls. reflexivity.
Defined.

Lemma cache_bust_fresh_witness :
  exists v1 v2 : Z,
    omap creation_url
      (panel_creations
         (trace (hass.host true) sample.built sample.register hass.empty))
    = ["/cafe_static/assets/index-C0ffee.js?v=" +:+ Py.str v1] /\
    omap creation_url
      (panel_creations
         (trace (hass.host true) sample.rebuilt sample.register sample.stale))
    = ["/cafe_static/assets/index-Dec0de.js?v=" +:+ Py.str v2] /\
    v1 = 1762178400%Z /\ v2 = 1762178401%Z.
Proof.
  destruct (cache_bust_fresh "cafe" "C.A.F.E." "mdi:graph" sample.here
              (hass.host true) sample.built sample.rebuilt
              hass.empty sample.stale
              "index-C0ffee.js" "index-Dec0de.js" [] [])
    as (v1 & v2 & Hu1 & Hu2 & Hv1 & Hv2 & _).
  - reflexivity.
  - reflexivity.
  - reflexivity.
  - reflexivity.
  - unfold Qle. simpl. lia.
  - unfold Qle. simpl. lia.
  - exists v1, v2. split; [exact Hu1 |]. split; [exact Hu2 |].
    split; [rewrite Hv1 | rewrite Hv2]; reflexivity.
Defined.

Lemma static_path_survives_abort_witness :
  bundle_scripts sample.here sample.missing = [] /\
  outcome (hass.host true) sample.missing sample.register hass.empty = Ok tt /\
  hass.served "/cafe_static"
    (final (hass.host true) sample.missing sample.register hass.empty) = true /\
  hass.frontend_panels
    (final (hass.host true) sample.missing sample.register hass.empty) = None.
Proof.
  destruct (static_path_survives_abort "cafe" "C.A.F.E." "mdi:graph" sample.here
              (hass.host true) sample.missing hass.empty)
    as (_ & _ & _ & Href).
  - reflexivity.
  - reflexivity.
  - destruct (Href true hass.empty) as (Hok & Hserved & Hpanels).
    split; [reflexivity |]. split; [exact Hok |]. split; [exact Hserved |].
    exact Hpanels.
Defined.

Lemma reregister_single_entry_witness :
  length (hass.entries_for "cafe" sample.stale) = 1 /\
  let hs1 := final (hass.host true) sample.built sample.register sample.stale in
  let hs2 := final (hass.host true) sample.rebuilt sample.register hs1 in
  outcome (hass.host true) sample.rebuilt sample.register hs1 = Ok tt /\
  length (hass.entries_for "cafe" hs2) = 1 /\
  hass.url <$> hass.panels hs2 !! "cafe"
  = Some (Some "/cafe_static/assets/index-Dec0de.js?v=1762178401").
Proof.
  destruct (reregister_single_entry "cafe" "C.A.F.E." "mdi:graph" sample.here
              true sample.built sample.rebuilt sample.stale
              "index-C0ffee.js" "index-Dec0de.js" [] [])
    as (_ & Hok & _ & Hone & Hnew & _).
  - reflexivity.
  - reflexivity.
  - split; [vm_compute; reflexivity |]. intros hs1 hs2.
    split; [exact Hok |]. split; [exact Hone |].
    subst hs2 hs1. unfold sample.register. rewrite Hnew. reflexivity.
Defined.

(** ** Which files a registration picks up *)

Section Discovery.
Variables (here : pathlib.Path) (env : Env).

Local Abbreviation assets := (cafe.www_path here / "assets")%path.
Local Abbreviation js_files :=
  (List.filter cafe.not_map (glob env assets "index-*.js")).

Lemma glob_index_js_not_map (f : pathlib.Path) :
  In f (glob env assets "index-*.js") -> cafe.not_map f = true.
Proof.
  unfold glob. destruct (fs env (pathlib.str assets)) as [[|entries]|]; [done | | done].
  intros (n & <- & [_ Hmatch]%filter_In)%in_map_iff.
  unfold cafe.not_map. cbn [pathlib.name pathlib.truediv].
  by rewrite (index_js_not_map n Hmatch).
Qed.

(** X1: the paths in [js_files] are exactly the entries of the assets
    directory named [index-<hash>.js], for any [hash], also the empty one;
    matching is case sensitive and nothing else is picked up. *)
Theorem js_files_selected (f : pathlib.Path) :
  In f js_files <->
  exists (entries : list string) (hash : string),
    fs env (pathlib.str assets) = Some (Dir entries) /\
    In ("index-" +:+ hash +:+ ".js") entries /\
    f = (assets / ("index-" +:+ hash +:+ ".js"))%path.
Proof.
  rewrite filter_In. split.
  - intros [Hin _]. unfold glob in Hin.
    destruct (fs env (pathlib.str assets)) as [[|entries]|]; [done | | done].
    apply in_map_iff in Hin as (n & <- & [Hn Hmatch]%filter_In).
    apply fnmatch_index_js in Hmatch as [hash ->]. by exists entries, hash.
  - intros (entries & hash & Hdir & Hin & ->).
    assert (In (assets / ("index-" +:+ hash +:+ ".js"))%path
              (glob env assets "index-*.js")) as Hglob.
    { unfold glob. rewrite Hdir. apply in_map, filter_In. split; [done |].
      apply fnmatch_index_js. by exists hash. }
    split; [done | by apply glob_index_js_not_map].
Qed.

(** X2: the test [not f.name.endswith('.map')] never drops a path: a name
    that [index-*.js] selects ends in [.js], so [js_files] is the result of
    the glob as it is, in the same order. *)
Theorem map_filter_drops_nothing : js_files = glob env assets "index-*.js".
Proof.
  assert (forall l : list pathlib.Path,
            (forall f, In f l -> cafe.not_map f = true) ->
            List.filter cafe.not_map l = l) as Hall.
  { induction l as [|f l IH]; [done |]. intros Hl. cbn [List.filter].
    rewrite (Hl f) by (by left). f_equal. apply IH. intros g Hg.
    apply Hl. by right. }
  apply Hall, glob_index_js_not_map.
Qed.

End Discovery.

(** ** Failures of the host during a registration *)

Section Failures.
Variables (DOMAIN PANEL_TITLE PANEL_ICON : string) (here : pathlib.Path).
Context {S : Type} (host : Host S).

Local Abbreviation register :=
  (cafe.async_register_panel DOMAIN PANEL_TITLE PANEL_ICON here).
Local Abbreviation static_call := (static_request here).
Local Abbreviation pop_call := (data_frontend_panels_pop DOMAIN).
Local Abbreviation create_call name now :=
  (creation_request DOMAIN PANEL_TITLE PANEL_ICON name now).
Local Abbreviation removed_record :=
  (INFO, "Removed any existing panel registration").

(** X3: when several scripts match, only the first in enumeration order
    counts: two bundles whose first script is the same, read at the same
    clock, give the same run, whatever else matches after it. *)
Theorem first_script_decides (env env' : Env) (s : S)
    (name : string) (rest rest' : list string) :
  bundle_scripts here env = name :: rest ->
  bundle_scripts here env' = name :: rest' ->
  clock env = clock env' ->
  run host env register s = run host env' register s.
Proof.
  intros Hf Hf' Hclock.
  destruct (host static_call s).1 as [[]|e] eqn:Hst.
  - rewrite (run_register_found _ _ _ _ _ _ s name rest Hst Hf).
    rewrite (run_register_found _ _ _ _ _ _ s name rest' Hst Hf').
    by rewrite Hclock.
  - by rewrite !(run_register_refused _ _ _ _ _ _ s e Hst).
Qed.

(** X4: an exception of the static-path registration reaches the caller
    unchanged, and the run stops there: no glob, no log record, no removal
    and no panel creation. *)
Theorem static_refusal_propagates (env : Env) (s : S) (e : Exn) :
  (host static_call s).1 = Raised e ->
  outcome host env register s = Raised e /\
  trace host env register s = [EvCall static_call] /\
  final host env register s = after host static_call s.
Proof.
  intros Hst. unfold outcome, trace, final.
  by rewrite (run_register_refused _ _ _ _ _ _ s e Hst).
Qed.

(** X5: an exception of the panel creation reaches the caller unchanged
    and the success record is not logged. The removal that preceded it is
    not undone: the host stays in the state reached after the removal and
    the failed creation, so a panel registered before is gone. *)
Theorem creation_failure_propagates (env : Env) (s : S)
    (name : string) (rest : list string) (e : Exn) :
  bundle_scripts here env = name :: rest ->
  accepts host static_call s ->
  let s1 := after host static_call s in
  let s2 := after host pop_call s1 in
  (host (create_call name (clock env)) s2).1 = Raised e ->
  outcome host env register s = Raised e /\
  final host env register s = after host (create_call name (clock env)) s2 /\
  calls (trace host env register s)
    = [static_call; pop_call; create_call name (clock env)] /\
  log_records (trace host env register s)
    = if is_ok (host pop_call s1).1 then [removed_record] else [].
Proof.
  intros Hf Hst s1 s2 Hcreate. unfold outcome, final, trace.
  rewrite (run_register_found _ _ _ _ _ _ s name rest Hst Hf). cbn [fst snd].
  fold s1 s2. rewrite Hcreate. cbn [is_ok].
  by destruct (is_ok (host pop_call s1).1).
Qed.

(** X6: what a successful registration logs. The record about the removal
    is written only when the removal returned; the closing record names the
    script the panel was registered with. *)
Theorem success_log (env : Env) (s : S) (name : string) (rest : list string) :
  bundle_scripts here env = name :: rest ->
  accepts host static_call s ->
  let s1 := after host static_call s in
  let s2 := after host pop_call s1 in
  accepts host (create_call name (clock env)) s2 ->
  log_records (trace host env register s)
    = (if is_ok (host pop_call s1).1 then [removed_record] else [])
      ++ [(INFO, "C.A.F.E. panel registered successfully with module: " +:+ name)].
Proof.
  intros Hf Hst s1 s2 Hcreate. unfold trace.
  rewrite (run_register_found _ _ _ _ _ _ s name rest Hst Hf). cbn [snd].
  fold s1 s2. rewrite Hcreate. cbn [is_ok].
  by destruct (is_ok (host pop_call s1).1).
Qed.

(** X7: every run, whatever the bundle and whatever the host answers,
    starts with the registration of the static path [/cafe_static] for the
    [www] directory, without cache headers, and never makes a second
    static-path call. *)
Theorem static_path_first_and_once (env : Env) (s : S) :
  exists t,
    trace host env register s
      = EvCall (http_async_register_static_paths
                  [ {| url_path := "/cafe_static";
                       path := pathlib.str (here / "www")%path;
                       cache_headers := false |} ]) :: t /\
    List.filter is_static_path_call (calls t) = [].
Proof.
  unfold trace. destruct (host static_call s).1 as [[]|e] eqn:Hst.
  - destruct (bundle_scripts here env) as [|name rest] eqn:Hf.
    + rewrite (run_register_abort _ _ _ _ _ _ s Hst Hf). by eexists.
    + rewrite (run_register_found _ _ _ _ _ _ s name rest Hst Hf). cbn [snd].
      eexists. split; [done |].
      by destruct (is_ok _), (is_ok _).
  - rewrite (run_register_refused _ _ _ _ _ _ s e Hst). by eexists.
Qed.

End Failures.

(** ** Effects on the reference host *)

Section ReferenceEffects.
Variables (DOMAIN PANEL_TITLE PANEL_ICON : string) (here : pathlib.Path).
Variable strict : bool.

Local Abbreviation register :=
  (cafe.async_register_panel DOMAIN PANEL_TITLE PANEL_ICON here).
Local Abbreviation unregister := (cafe.async_unregister_panel DOMAIN).
Local Abbreviation static_config :=
  {| url_path := "/cafe_static";
     path := pathlib.str (cafe.www_path here);
     cache_headers := false |}.
Local Abbreviation new_panel name now :=
  {| hass.component_name := "custom";
     hass.sidebar_title := PANEL_TITLE;
     hass.sidebar_icon := PANEL_ICON;
     hass.frontend_url_path := DOMAIN;
     hass.url := Some (cafe.module_url name (cafe.cache_bust now));
     hass.config := [];
     hass.require_admin := true |}.

Lemma panels_mk (table : list StaticPathConfig) (m : gmap string hass.Panel) :
  hass.panels {| hass.static_paths := table; hass.frontend_panels := Some m |} = m.
Proof. reflexivity. Qed.

Lemma final_register_reference (env : Env) (hs : hass.State) :
  final (hass.host strict) env register hs
  = match bundle_scripts here env with
    | [] => hass.register_static_paths [static_config] hs
    | name :: _ =>
        {| hass.static_paths :=
             hass.static_paths (hass.register_static_paths [static_config] hs);
           hass.frontend_panels :=
             Some (<[DOMAIN := new_panel name (clock env)]>
                     (delete DOMAIN (hass.panels hs))) |}
    end.
Proof.
  unfold final. destruct (bundle_scripts here env) as [|name rest] eqn:Hf.
  - by rewrite (run_register_abort DOMAIN PANEL_TITLE PANEL_ICON here
                  (hass.host strict) env hs eq_refl Hf).
  - rewrite (run_register_found DOMAIN PANEL_TITLE PANEL_ICON here
               (hass.host strict) env hs name rest eq_refl Hf).
    cbn [fst snd]. unfold after. cbn [hass.host snd fst].
    pose proof (register_panel_after_pop strict (new_panel name (clock env))
                  (hass.register_static_paths [static_config] hs)) as Hreg.
    cbn [hass.frontend_url_path] in Hreg.
    unfold hass.custom_panel. cbn [panel_custom.sidebar_title
      panel_custom.sidebar_icon panel_custom.frontend_url_path
      panel_custom.module_url panel_custom.config panel_custom.require_admin].
    by rewrite Hreg.
Qed.

Lemma outcome_register_reference (env : Env) (hs : hass.State) :
  outcome (hass.host strict) env register hs = Ok tt.
Proof.
  destruct (bundle_scripts here env) as [|name rest] eqn:Hf.
  - unfold outcome.
    by rewrite (run_register_abort DOMAIN PANEL_TITLE PANEL_ICON here
                  (hass.host strict) env hs eq_refl Hf).
  - by destruct (register_on_reference DOMAIN PANEL_TITLE PANEL_ICON here
                   strict env hs name rest Hf).
Qed.

Lemma static_paths_reregister (c : StaticPathConfig) (hs hs' : hass.State) :
  hass.static_paths hs' = hass.static_paths (hass.register_static_paths [c] hs) ->
  hass.static_paths (hass.register_static_paths [c] hs')
  = hass.static_paths (hass.register_static_paths [c] hs).
Proof.
  unfold hass.register_static_paths. cbn [hass.static_paths fold_left].
  intros ->.
  destruct (existsb _ (hass.static_paths hs)) eqn:Hin.
  - by rewrite Hin.
  - by rewrite existsb_app, Hin; cbn [existsb]; rewrite String.eqb_refl.
Qed.

(** X8: a registration and an unregistration touch the panel entry of
    their own domain only: in the registry of the reference host the entry
    under every other key is the same before and after, whatever the bundle
    holds. *)
Theorem other_panels_untouched (env : Env) (hs : hass.State) (key : string) :
  key <> DOMAIN ->
  hass.panels (final (hass.host strict) env register hs) !! key
    = hass.panels hs !! key /\
  hass.panels (final (hass.host strict) env unregister hs) !! key
    = hass.panels hs !! key.
Proof.
  intros Hkey. split.
  - rewrite final_register_reference.
    destruct (bundle_scripts here env) as [|name rest]; [done |].
    by rewrite panels_mk, lookup_insert_ne, lookup_delete_ne.
  - change (final (hass.host strict) env unregister hs)
      with (hass.remove_panel DOMAIN hs).
    by rewrite panels_remove, lookup_delete_ne.
Qed.

(** X9: the last registration wins. On the reference host, a registration
    that finds a script leaves the state it would have left had the
    registration before it not happened: nothing of the earlier entry
    survives, and the static path is not listed twice. *)
Theorem last_registration_wins (env1 env2 : Env) (hs : hass.State)
    (name2 : string) (rest2 : list string) :
  bundle_scripts here env2 = name2 :: rest2 ->
  final (hass.host strict) env2 register
    (final (hass.host strict) env1 register hs)
  = final (hass.host strict) env2 register hs.
Proof.
  intros Hf2. rewrite !(final_register_reference env2), Hf2.
  rewrite (final_register_reference env1).
  destruct (bundle_scripts here env1) as [|name1 rest1].
  - f_equal. by apply static_paths_reregister.
  - f_equal; [by apply static_paths_reregister |].
    by rewrite panels_mk, delete_insert_eq, delete_delete_eq.
Qed.

(** X10: registering and then unregistering leaves no panel for the
    domain and the other entries as they were, but the static path stays
    registered: [async_unregister_panel] removes the panel only. *)
Theorem register_then_unregister (env : Env) (hs : hass.State) :
  let hs1 := final (hass.host strict) env register hs in
  let hs2 := final (hass.host strict) env unregister hs1 in
  outcome (hass.host strict) env register hs = Ok tt /\
  outcome (hass.host strict) env unregister hs1 = Ok tt /\
  hass.panels hs2 = delete DOMAIN (hass.panels hs) /\
  hass.static_paths hs2 = hass.static_paths hs1 /\
  hass.served "/cafe_static" hs2 = true.
Proof.
  intros hs1 hs2. split; [apply outcome_register_reference |].
  split; [done |].
  assert (hs2 = hass.remove_panel DOMAIN hs1) as -> by done.
  rewrite panels_remove. subst hs1. rewrite final_register_reference.
  destruct (bundle_scripts here env) as [|name rest].
  - split; [done |]. split; [done |].
    apply (served_register_static_paths static_config).
  - split; [| split; [done |]].
    + by rewrite panels_mk, delete_insert_eq, delete_delete_eq.
    + apply (served_register_static_paths static_config).
Qed.

End ReferenceEffects.

(** ** [async_unregister_panel] and [async_setup] on any host *)

Section Propagation.
Context {S ConfigType : Type} (host : Host S) (env : Env).

Local Abbreviation setup_static here :=
  (http_register_static_path
     "/flow_automator_static" (pathlib.str (here / "www")%path) false).
Local Abbreviation setup_iframe :=
  (frontend_async_register_built_in_panel
     {| frontend.component_name := "iframe";
        frontend.sidebar_title := flow_automator.PANEL_TITLE;
        frontend.sidebar_icon := flow_automator.PANEL_ICON;
        frontend.frontend_url_path := "flow-automator";
        frontend.config := [("url", "/flow_automator_static/index.html")];
        frontend.require_admin := true |}).

(** X11: [async_unregister_panel] has no error handling of its own: an
    exception of the removal call of the host reaches the caller unchanged,
    and then nothing is logged. *)
Theorem unregister_failure_propagates (DOMAIN : string) (s : S) (e : Exn) :
  (host (frontend_async_remove_panel DOMAIN) s).1 = Raised e ->
  outcome host env (cafe.async_unregister_panel DOMAIN) s = Raised e /\
  log_records (trace host env (cafe.async_unregister_panel DOMAIN) s) = [] /\
  final host env (cafe.async_unregister_panel DOMAIN) s
    = after host (frontend_async_remove_panel DOMAIN) s.
Proof.
  unfold outcome, trace, final, after, cafe.async_unregister_panel, call. cbn.
  destruct (host (frontend_async_remove_panel DOMAIN) s) as [r s1].
  cbn. by intros ->.
Qed.

(** X12: [async_setup] returns [True] exactly when both host calls return;
    otherwise the exception of the first call that raised reaches the
    caller. The record is logged only after both returned, and no run
    removes a panel: unlike the custom-element registrar, nothing clears an
    earlier entry before the creation. *)
Theorem setup_outcome (here : pathlib.Path) (config : ConfigType) (s : S) :
  let s1 := after host (setup_static here) s in
  outcome host env (flow_automator.async_setup here config) s
    = match (host (setup_static here) s).1 with
      | Raised e => Raised e
      | Ok _ =>
          match (host setup_iframe s1).1 with
          | Raised e => Raised e
          | Ok _ => Ok true
          end
      end /\
  log_records (trace host env (flow_automator.async_setup here config) s)
    = (if is_ok (host (setup_static here) s).1 && is_ok (host setup_iframe s1).1
       then [(INFO, "C.A.F.E. panel registered")] else []) /\
  List.filter is_panel_removal
    (calls (trace host env (flow_automator.async_setup here config) s)) = [].
Proof.
  intros s1. unfold outcome, trace. rewrite run_async_setup.
  destruct (host (setup_static here) s).1 as [[]|e]; [|done]. cbv zeta. fold s1.
  by destruct (host setup_iframe s1).1 as [[]|e'].
Qed.

End Propagation.

(** ** [async_setup] on the reference host *)

Section SetupReference.
Variables (here : pathlib.Path) (strict : bool).
Context {ConfigType : Type}.

Local Abbreviation iframe_panel :=
  {| hass.component_name := "iframe";
     hass.sidebar_title := flow_automator.PANEL_TITLE;
     hass.sidebar_icon := flow_automator.PANEL_ICON;
     hass.frontend_url_path := "flow-automator";
     hass.url := Some "/flow_automator_static/index.html";
     hass.config := [("url", "/flow_automator_static/index.html")];
     hass.require_admin := true |}.

Lemma register_panel_free (p : hass.Panel) (hs : hass.State) :
  hass.panels hs !! hass.frontend_url_path p = None ->
  hass.register_panel strict p hs
  = (Ok tt,
     {| hass.static_paths := hass.static_paths hs;
        hass.frontend_panels :=
          Some (<[hass.frontend_url_path p := p]> (hass.panels hs)) |}).
Proof.
  intros Hfree. unfold hass.register_panel. rewrite Hfree.
  rewrite bool_decide_eq_false_2 by (by intros [? ?]).
  by rewrite andb_false_r.
Qed.

(** X13: on the reference host, when no panel is registered under
    [flow-automator], [async_setup] returns [True], adds the iframe panel
    under that key and leaves every other entry as it was, and the prefix
    [/flow_automator_static] is served. *)
Theorem setup_on_reference (env : Env) (config : ConfigType) (hs : hass.State) :
  hass.panels hs !! "flow-automator" = None ->
  let hs1 :=
    final (hass.host strict) env (flow_automator.async_setup here config) hs in
  outcome (hass.host strict) env (flow_automator.async_setup here config) hs
    = Ok true /\
  hass.panels hs1 = <["flow-automator" := iframe_panel]> (hass.panels hs) /\
  hass.served "/flow_automator_static" hs1 = true.
Proof.
  intros Hfree hs1.
  assert (run (hass.host strict) env (flow_automator.async_setup here config) hs
          = (Ok true,
             {| hass.static_paths :=
                  hass.static_paths
                    (hass.register_static_paths
                       [ {| url_path := "/flow_automator_static";
                            path := pathlib.str (here / "www")%path;
                            cache_headers := false |} ] hs);
                hass.frontend_panels :=
                  Some (<["flow-automator" := iframe_panel]> (hass.panels hs)) |},
             [ EvCall (http_register_static_path "/flow_automator_static"
                         (pathlib.str (here / "www")%path) false);
               EvCall (frontend_async_register_built_in_panel
                         {| frontend.component_name := "iframe";
                            frontend.sidebar_title := flow_automator.PANEL_TITLE;
                            frontend.sidebar_icon := flow_automator.PANEL_ICON;
                            frontend.frontend_url_path := "flow-automator";
                            frontend.config :=
                              [("url", "/flow_automator_static/index.html")];
                            frontend.require_admin := true |});
               EvLog INFO "C.A.F.E. panel registered" ])) as Hrun.
  { pose proof (register_panel_free
                  (hass.built_in_panel
                     {| frontend.component_name := "iframe";
                        frontend.sidebar_title := flow_automator.PANEL_TITLE;
                        frontend.sidebar_icon := flow_automator.PANEL_ICON;
                        frontend.frontend_url_path := "flow-automator";
                        frontend.config :=
                          [("url", "/flow_automator_static/index.html")];
                        frontend.require_admin := true |})
                  (hass.register_static_paths
                     [ {| url_path := "/flow_automator_static";
                          path := pathlib.str (here / "www")%path;
                          cache_headers := false |} ] hs) Hfree) as Hreg.
    rewrite run_async_setup. unfold after. cbn [hass.host fst snd].
    rewrite Hreg. reflexivity. }
  subst hs1. unfold outcome, final. rewrite Hrun. cbn [fst snd].
  split; [done |]. split; [apply panels_mk |].
  apply (served_register_static_paths
           {| url_path := "/flow_automator_static";
              path := pathlib.str (here / "www")%path;
              cache_headers := false |}).
Qed.

End SetupReference.

(** ** The module URL and the cache-busting value *)

Section ModuleUrl.

Lemma has_question_mark_app (a b : string) :
  has_question_mark (a +:+ b) = has_question_mark a || has_question_mark b.
Proof.
  induction a as [|c a IH]; sapp; [done |].
  cbn [has_question_mark]. by rewrite IH, orb_assoc.
Qed.

Lemma digits_no_question_mark (s : string) :
  Py.all_digits s = true -> has_question_mark s = false.
Proof.
  induction s as [|c s IH]; [done |]. cbn [Py.all_digits has_question_mark].
  intros [Hc Hs]%andb_true_iff. rewrite (IH Hs), orb_false_r.
  destruct (Ascii.eqb_spec c "?") as [-> |]; [discriminate Hc | done].
Qed.

Lemma str_no_question_mark (n : Z) : has_question_mark (Py.str n) = false.
Proof.
  destruct n as [|p|p]; [done | |].
  - apply digits_no_question_mark, str_digits. lia.
  - change (Py.str (Z.neg p)) with (String "-" (Py.str (Z.pos p))).
    cbn [has_question_mark]. rewrite orb_false_l.
    apply digits_no_question_mark, str_digits. lia.
Qed.

(** A string is cut in one way only at its last [?]. *)
Lemma append_query_inj (a b d1 d2 : string) :
  has_question_mark d1 = false ->
  has_question_mark d2 = false ->
  a +:+ String "?" d1 = b +:+ String "?" d2 ->
  a = b /\ d1 = d2.
Proof.
  intros Hd1 Hd2. revert b.
  induction a as [|c a IH]; intros [|c' b]; sapp; intros Heq.
  - by injection Heq as ->.
  - injection Heq as <- ->.
    rewrite has_question_mark_app in Hd1. cbn in Hd1.
    by rewrite orb_true_r in Hd1.
  - injection Heq as -> <-.
    rewrite has_question_mark_app in Hd2. cbn in Hd2.
    by rewrite orb_true_r in Hd2.
  - injection Heq as -> Heq. by destruct (IH b Heq) as [-> ->].
Qed.

(** X14: the module URL determines the script and the cache-busting value:
    two URLs are equal only when both the file name and the value are, also
    for file names that hold a [?] themselves. So a new build or a new
    value always gives a new URL. *)
Theorem module_url_inj (name1 name2 : string) (v1 v2 : Z) :
  cafe.module_url name1 v1 = cafe.module_url name2 v2 <->
  name1 = name2 /\ v1 = v2.
Proof.
  split; [| by intros [-> ->]].
  unfold cafe.module_url. intros Heq.
  apply (inj (String.append "/cafe_static/assets/")) in Heq.
  assert (name1 +:+ String "?" ("v=" +:+ Py.str v1)
          = name2 +:+ String "?" ("v=" +:+ Py.str v2)) as Hcut by exact Heq.
  apply append_query_inj in Hcut as [Hname Hv].
  - split; [done |].
    apply str_inj. by apply (inj (String.append "v=")) in Hv.
  - by rewrite has_question_mark_app, str_no_question_mark.
  - by rewrite has_question_mark_app, str_no_question_mark.
Qed.

(** X15: for a clock reading that is not negative the cache-busting value
    is the whole number of seconds in it: the one integer [n] with
    [n <= t < n + 1]. Registrations within the same second share the
    value. *)
Theorem cache_bust_floor (t : Q) :
  (0 <= t)%Q ->
  (inject_Z (cafe.cache_bust t) <= t)%Q /\
  (t < inject_Z (cafe.cache_bust t + 1))%Q /\
  forall n : Z,
    (inject_Z n <= t)%Q -> (t < inject_Z (n + 1))%Q -> cafe.cache_bust t = n.
Proof.
  intros Ht. unfold cafe.cache_bust. rewrite int_floor by done.
  split; [apply Qfloor_le |]. split; [apply Qlt_floor |].
  intros n Hlo Hhi.
  assert (n <= Qfloor t)%Z as Hle.
  { rewrite <- (Qfloor_Z n). by apply Qfloor_resp_le. }
  assert (Qfloor t < n + 1)%Z as Hlt.
  { rewrite Zlt_Qlt. apply Qle_lt_trans with t; [apply Qfloor_le | done]. }
  lia.
Qed.

End ModuleUrl.

(** ** The module URL and the files on disk *)

Section OnDisk.
Variables (DOMAIN PANEL_TITLE PANEL_ICON : string) (here : pathlib.Path).
Context {S : Type} (host : Host S) (env : Env).

Local Abbreviation register :=
  (cafe.async_register_panel DOMAIN PANEL_TITLE PANEL_ICON here).
Local Abbreviation assets := (cafe.www_path here / "assets")%path.

(** X16: the module URL names an entry that exists. When a script is found
    whose name holds neither [?] nor [#], the run registers a static path
    [(prefix, directory)] and creates the panel with a module URL whose path
    component is [prefix/assets/<name>], and [<name>] is an entry of
    [directory/assets] at the time of the registration. *)
Theorem module_url_names_an_entry (s : S) (name : string) (rest : list string) :
  bundle_scripts here env = name :: rest ->
  url_path_component name = name ->
  accepts host (static_request here) s ->
  exists (cfg : StaticPathConfig) (kw : panel_custom.kwargs)
         (entries : list string),
    calls (trace host env register s)
      = [ http_async_register_static_paths [cfg];
          data_frontend_panels_pop DOMAIN;
          panel_custom_async_register_panel kw ] /\
    fs env (path cfg +:+ "/assets") = Some (Dir entries) /\
    In name entries /\
    url_path_component (panel_custom.module_url kw)
      = url_path cfg +:+ "/assets/" +:+ name /\
    panel_custom.module_url kw
      = url_path cfg +:+ "/assets/" +:+ name +:+ "?v="
        +:+ Py.str (cafe.cache_bust (clock env)).
Proof.
  intros Hf Hname Hst.
  destruct (creations_register_found DOMAIN PANEL_TITLE PANEL_ICON here
              host env s name rest Hst Hf) as [Hcalls _].
  unfold bundle_scripts in Hf.
  destruct (fs env (pathlib.str assets)) as [[|entries]|] eqn:Hdir;
    [done | | done].
  assert (In name entries) as Hin.
  { assert (In name (name :: rest)) as Hhead by (by left).
    rewrite <- Hf in Hhead. by apply filter_In in Hhead as [? _]. }
  eexists _, _, entries. split; [exact Hcalls |].
  split; [exact Hdir |]. split; [exact Hin |].
  split; [| reflexivity].
  apply (module_url_path_component name _ Hname).
Qed.

(** X17: when [assets] is not a directory, because it is missing or because
    it is a regular file, the glob finds nothing and the run ends as on an
    empty directory, without an exception. The second log record tells the
    two cases apart: it reports whether the path exists. *)
Theorem assets_not_a_directory (s : S) :
  (forall entries, fs env (pathlib.str assets) <> Some (Dir entries)) ->
  accepts host (static_request here) s ->
  outcome host env register s = Ok tt /\
  panel_creations (trace host env register s) = [] /\
  log_records (trace host env register s)
    = [ (ERROR, "No JavaScript files found in assets directory");
        (ERROR, "www path: " +:+ pathlib.str (cafe.www_path here) +:+
                ", assets exist: " +:+
                match fs env (pathlib.str assets) with
                | Some _ => "True"
                | None => "False"
                end) ].
Proof.
  intros Hnodir Hst.
  assert (bundle_scripts here env = []) as Hnone.
  { unfold bundle_scripts.
    destruct (fs env (pathlib.str assets)) as [[|entries]|] eqn:Hdir;
      [done | by destruct (Hnodir entries) | done]. }
  unfold outcome, panel_creations, trace.
  rewrite (run_register_abort _ _ _ _ _ _ s Hst Hnone). cbn [fst snd].
  split; [done |]. split; [done |].
  unfold exists_, Py.str_bool.
  by destruct (fs env (pathlib.str assets)).
Qed.

End OnDisk.

(** ** The further properties on the sample deployments *)

Lemma first_script_decides_witness :
  bundle_scripts sample.here sample2.cluttered
    = ["index-C0ffee.js"; "index-0ld.js"] /\
  run (hass.host true) sample.built sample.register sample.stale
    = run (hass.host true) sample2.cluttered sample.register sample.stale.
Proof.
  split; [reflexivity |].
  apply (first_script_decides "cafe" "C.A.F.E." "mdi:graph" sample.here
           (hass.host true) sample.built sample2.cluttered sample.stale
           "index-C0ffee.js" [] ["index-0ld.js"]); reflexivity.
Defined.

Lemma static_refusal_propagates_witness :
  outcome sample2.no_static sample.built sample.register sample.stale
    = Raised "RuntimeError" /\
  length (trace sample2.no_static sample.built sample.register sample.stale) = 1.
Proof.
  destruct (static_refusal_propagates "cafe" "C.A.F.E." "mdi:graph" sample.here
              sample2.no_static sample.built sample.stale "RuntimeError")
    as (Hout & Htrace & _).
  - reflexivity.
  - split; [exact Hout |]. unfold sample.register. rewrite Htrace. reflexivity.
Defined.

Lemma creation_failure_propagates_witness :
  length (hass.entries_for "cafe" sample.stale) = 1 /\
  outcome sample2.no_creation sample.built sample.register sample.stale
    = Raised "ValueError" /\
  length (hass.entries_for "cafe"
            (final sample2.no_creation sample.built sample.register sample.stale))
    = 0.
Proof.
  destruct (creation_failure_propagates "cafe" "C.A.F.E." "mdi:graph" sample.here
              sample2.no_creation sample.built sample.stale
              "index-C0ffee.js" [] "ValueError")
    as (Hout & Hfinal & _).
  - reflexivity.
  - reflexivity.
  - reflexivity.
  - split; [vm_compute; reflexivity |]. split; [exact Hout |].
    unfold sample.register. rewrite Hfinal. vm_compute. reflexivity.
Defined.

Lemma success_log_witness :
  log_records (trace (hass.host true) sample.built sample.register sample.stale)
  = [ (INFO, "Removed any existing panel registration");
      (INFO, "C.A.F.E. panel registered successfully with module: index-C0ffee.js") ].
Proof.
  unfold sample.register.
  rewrite (success_log "cafe" "C.A.F.E." "mdi:graph" sample.here
             (hass.host true) sample.built sample.stale "index-C0ffee.js" []).
  - reflexivity.
  - reflexivity.
  - reflexivity.
  - vm_compute. reflexivity.
Defined.

Lemma other_panels_untouched_witness :
  hass.panels sample2.crowded !! "energy" = Some sample2.energy_panel /\
  hass.panels
    (final (hass.host true) sample.built sample.register sample2.crowded)
    !! "energy" = Some sample2.energy_panel.
Proof.
  destruct (other_panels_untouched "cafe" "C.A.F.E." "mdi:graph" sample.here
              true sample.built sample2.crowded "energy") as [Hreg _].
  - discriminate.
  - split; [vm_compute; reflexivity |].
    unfold sample.register. rewrite Hreg. vm_compute. reflexivity.
Defined.

Lemma last_registration_wins_witness :
  final (hass.host true) sample.rebuilt sample.register
    (final (hass.host true) sample.built sample.register sample.stale)
  = final (hass.host true) sample.rebuilt sample.register sample.stale.
Proof.
  apply (last_registration_wins "cafe" "C.A.F.E." "mdi:graph" sample.here
           true sample.built sample.rebuilt sample.stale "index-Dec0de.js" []).
  reflexivity.
Defined.

Lemma unregister_failure_propagates_witness :
  outcome sample2.no_removal sample.built sample.unregister sample.stale
    = Raised "KeyError" /\
  log_records
    (trace sample2.no_removal sample.built sample.unregister sample.stale) = [].
Proof.
  destruct (unregister_failure_propagates sample2.no_removal sample.built
              "cafe" sample.stale "KeyError") as (Hout & Hlog & _).
  - reflexivity.
  - split; [exact Hout | exact Hlog].
Defined.

Lemma setup_on_reference_witness :
  let hs1 := final (hass.host true) sample.built sample.setup sample.stale in
  outcome (hass.host true) sample.built sample.setup sample.stale = Ok true /\
  hass.url <$> hass.panels hs1 !! "flow-automator"
    = Some (Some "/flow_automator_static/index.html") /\
  hass.served "/flow_automator_static" hs1 = true.
Proof.
  destruct (setup_on_reference sample.flow_here true sample.built tt sample.stale)
    as (Hout & Hpanels & Hserved).
  - vm_compute. reflexivity.
  - intros hs1. split; [exact Hout |]. split; [| exact Hserved].
    subst hs1. unfold sample.setup. rewrite Hpanels.
    rewrite lookup_insert_eq. reflexivity.
Defined.

Lemma cache_bust_floor_witness :
  cafe.cache_bust (17621784007 # 10) = 1762178400%Z /\
  cafe.cache_bust (17621784009 # 10) = 1762178400%Z.
Proof.
  destruct (cache_bust_floor (17621784009 # 10)) as (_ & _ & Huniq).
  - unfold Qle. simpl. lia.
  - split; [reflexivity |]. apply Huniq.
    + unfold Qle. simpl. lia.
    + unfold Qlt. simpl. lia.
Defined.

Lemma module_url_names_an_entry_witness :
  exists entries : list string,
    fs sample.built "/config/custom_components/cafe/www/assets"
      = Some (Dir entries) /\
    In "index-C0ffee.js" entries /\
    omap (fun c => url_path_component <$> creation_url c)
      (panel_creations
         (trace (hass.host true) sample.built sample.register hass.empty))
    = ["/cafe_static/assets/index-C0ffee.js"].
Proof.
  destruct (module_url_names_an_entry "cafe" "C.A.F.E." "mdi:graph" sample.here
              (hass.host true) sample.built hass.empty "index-C0ffee.js" [])
    as (cfg & kw & entries & Hcalls & Hdir & Hin & Hpath & Hurl).
  - reflexivity.
  - reflexivity.
  - reflexivity.
  - exists entries. injection Hcalls as Hcfg Hkw. subst cfg.
    split; [exact Hdir |]. split; [exact Hin | reflexivity].
Defined.

Lemma assets_not_a_directory_witness :
  fs sample2.assets_is_file "/config/custom_components/cafe/www/assets"
    = Some File /\
  outcome (hass.host true) sample2.assets_is_file sample.register hass.empty
    = Ok tt /\
  log_records
    (trace (hass.host true) sample2.assets_is_file sample.register hass.empty)
  = [ (ERROR, "No JavaScript files found in assets directory");
      (ERROR, "www path: /config/custom_components/cafe/www, assets exist: True") ].
Proof.
  destruct (assets_not_a_directory "cafe" "C.A.F.E." "mdi:graph" sample.here
              (hass.host true) sample2.assets_is_file hass.empty)
    as (Hout & _ & Hlog).
  - intros entries. discriminate.
  - reflexivity.
  - split; [reflexivity |]. split; [exact Hout |].
    unfold sample.register. rewrite Hlog. reflexivity.
Defined.
